(** * cpi_update.py: the filter-and-render pipeline of the CPI dashboard

    A shallow embedding of [src/cpi_update.py].  The module-level table
    [cpi_data] is a pandas DataFrame built once at import time; five Dash
    callbacks read it.  DataFrames are objects of a store and the callbacks
    are programs of a small state-and-exception monad over that store, so
    that copies, boolean indexing and sorting are seen to allocate fresh
    objects.  A plotly figure is its traces, with the keyword arguments of
    [go.Scatter] as they are written at each call site, and its layout:
    the properties the figure holds once the keywords of
    [fig.update_layout] have been assigned. *)

From Stdlib Require Import ZArith QArith List String Ascii Bool Lia.
From Stdlib Require Import Sorted Permutation DecimalString.
Import ListNotations.

Local Open Scope string_scope.
Local Open Scope Z_scope.

(** ** Python strings *)

Module Py.

(** [str(n)] of an integer. *)
Definition str (n : Z) : string := NilZero.string_of_int (Z.to_int n).

Fixpoint zeros (n : nat) : string :=
  match n with
  | O => EmptyString
  | S n' => String "0" (zeros n')
  end.

(** [s.zfill(width)] on the decimal text of a non-negative number: pad on
    the left with zeros up to [width] characters. *)
Definition zfill (width : nat) (s : string) : string :=
  zeros (width - String.length s) ++ s.

(** [s[:n]] and [s[n:]] and [s[n:m]]. *)
Definition slice_to (n : nat) (s : string) : string := substring 0 n s.
Definition slice_from (n : nat) (s : string) : string :=
  substring n (String.length s) s.
Definition slice (n m : nat) (s : string) : string := substring n (m - n) s.

(** [sub in s] for two strings: substring test. *)
Fixpoint contains (sub s : string) : bool :=
  prefix sub s ||
  match s with
  | EmptyString => false
  | String _ s' => contains sub s'
  end.

(** Iterating over a string yields its characters as one-character strings. *)
Fixpoint chars (s : string) : list string :=
  match s with
  | EmptyString => []
  | String c s' => String c EmptyString :: chars s'
  end.

(** [a == b] where [b] may be [None]; a text column never holds [None]. *)
Definition eq_opt (a : string) (b : option string) : bool :=
  match b with
  | Some s => String.eqb a s
  | None => false
  end.

Definition opt_eqb (a b : option string) : bool :=
  match a, b with
  | Some x, Some y => String.eqb x y
  | None, None => true
  | _, _ => false
  end.

End Py.

(** ** The table *)

(** One row as [pd.read_sql_query] returns it (the SELECT list of [query]). *)
Record RawRow := mkRaw {
  raw_year : Z;
  raw_month : string;
  raw_month_number : Z;
  raw_state : string;
  raw_sector : string;
  raw_grp : string;
  raw_subgroup : option string;
  raw_base_year : string;
  raw_inflation : Q;
  raw_index : Q;
  raw_year_month : string;
  raw_xaxislabel : string
}.

(** One row of [cpi_data] after the module-level normalisation. *)
Record Row := mkRow {
  year : Z;
  month : string;
  month_number : string;
  state : string;
  sector : string;
  grp : string;
  subgroup : option string;
  base_year : string;
  inflation : Q;
  index : Q;
  year_month : string;
  xaxislabel : string;
  year_month2 : string
}.

Definition DataFrame := list Row.

(** ** pandas on plain lists *)

Module Pd.

Section Unique.
Context {A : Type} (eqb : A -> A -> bool).

Definition mem (a : A) (l : list A) : bool := existsb (eqb a) l.

(** [Series.unique()]: distinct values in order of first appearance. *)
Fixpoint unique_acc (seen : list A) (l : list A) : list A :=
  match l with
  | [] => []
  | a :: l' =>
      if mem a seen then unique_acc seen l'
      else a :: unique_acc (a :: seen) l'
  end.

Definition unique (l : list A) : list A := unique_acc [] l.
End Unique.

Section Sort.
Context {A K : Type} (leb : K -> K -> bool) (key : A -> K).

Fixpoint insert (a : A) (l : list A) : list A :=
  match l with
  | [] => [a]
  | b :: l' =>
      if leb (key a) (key b) then a :: b :: l'
      else b :: insert a l'
  end.

(** Ascending sort by a key.  The order that pandas and numpy give to
    entries with equal keys is not fixed by their default sort kind;
    here equal keys keep their relative order. *)
Fixpoint sort_by (l : list A) : list A :=
  match l with
  | [] => []
  | a :: l' => insert a (sort_by l')
  end.

(** The order the sort works with. *)
Definition key_le (a b : A) : Prop := leb (key a) (key b) = true.
End Sort.

(** [df.sort_values(col)] on a text column: Python's order on [str]. *)
Definition sort_values {A : Type} (col : A -> string) : list A -> list A :=
  sort_by String.leb col.

(** [sorted(xs)] on integers. *)
Definition sorted (xs : list Z) : list Z := sort_by Z.leb (fun x => x) xs.

End Pd.

(** ** Module level: lines 40-47 *)

Definition normalise (r : RawRow) : Row :=
  let month_number := Py.zfill 2 (Py.str (raw_month_number r)) in
  let year_month := Py.str (raw_year r) ++ month_number in
  {| year := raw_year r;
     month := raw_month r;
     month_number := month_number;
     state := raw_state r;
     sector := raw_sector r;
     grp := raw_grp r;
     subgroup := raw_subgroup r;
     base_year := raw_base_year r;
     inflation := raw_inflation r;
     index := raw_index r;
     year_month := year_month;
     xaxislabel :=
       Py.slice_to 4 (raw_xaxislabel r) ++ "-" ++ Py.slice 4 7 (raw_xaxislabel r);
     year_month2 := Py.slice_to 4 year_month ++ "-" ++ Py.slice_from 4 year_month |}.

(** [cpi_data] as the callbacks find it. *)
Definition load (raw_data : list RawRow) : DataFrame :=
  Pd.sort_values year_month (map normalise raw_data).

(** ** Values that cross the Dash boundary *)

(** An entry of the year dropdown's value: a year or the text of an option. *)
Inductive PyVal :=
| PInt (n : Z)
| PStr (s : string).

Definition pyval_eqb (a b : PyVal) : bool :=
  match a, b with
  | PInt n, PInt m => Z.eqb n m
  | PStr s, PStr t => String.eqb s t
  | _, _ => false
  end.

(** The value of the multi-select year dropdown: the layout's initial value
    is the text ["Select All"], a user's choice is a list, and a cleared
    component may be [None]. *)
Inductive YearSelection :=
| SelNone
| SelStr (s : string)
| SelList (l : list PyVal).

(** An entry of a dropdown's [options]. *)
Record DropdownOption (V : Type) := mkOption { label : V; value : V }.
Arguments mkOption {V} _ _.
Arguments label {V} _.
Arguments value {V} _.

(** ** Figures: what is handed to plotly *)

Module Scatter.
Record t := mk {
  x : list string;
  y : list Q;
  mode : string;
  name : string;
  line_color : string;
  yaxis : string;
  hovertemplate : string
}.
End Scatter.

Module Font.
Record t := mk { size : Z; family : string; color : string; weight : string }.
End Font.

Module YAxis.
Record t := mk { title : string; side : string; color : string; showgrid : bool }.
End YAxis.

Module XAxis.
Record t := mk { showgrid : bool; gridcolor : string; tickangle : Z }.
End XAxis.

(** The keyword arguments of one [fig.update_layout(...)] call, in the
    order they are written. *)
Module LayoutArgs.
Record t := mk {
  xaxis_title : string;
  yaxis_title : string;
  template : string;
  title_font : Font.t;
  xaxis_title_font : Font.t;
  yaxis_title_font : Font.t;
  font_color : string;
  yaxis : YAxis.t;
  xaxis : XAxis.t;
  margin_t : Z;
  title_x : Q
}.
End LayoutArgs.

(** The layout a figure holds: plotly's tree of properties, each unset
    until an update assigns it. *)
Module Layout.
(** [layout.xaxis.title] and [layout.yaxis.title] *)
Record Title := mkTitle { text : option string; font : option Font.t }.

(** [layout.xaxis] and [layout.yaxis] *)
Record Axis := mkAxis {
  title : Title;
  side : option string;
  color : option string;
  showgrid : option bool;
  gridcolor : option string;
  tickangle : option Z
}.

Record t := mk {
  template : option string;
  title_font : option Font.t;     (* layout.title.font *)
  title_x : option Q;             (* layout.title.x *)
  font_color : option string;     (* layout.font.color *)
  xaxis : Axis;
  yaxis : Axis;
  margin_t : option Z             (* layout.margin.t *)
}.

Definition no_title : Title := mkTitle None None.
Definition no_axis : Axis := mkAxis no_title None None None None None.
Definition empty : t := mk None None None None no_axis no_axis None.

(** A value assigned to a property.  A text assigned to a [title] is
    coerced to a title that holds this text and nothing else. *)
Inductive Value :=
| Text (s : string)
| Flag (b : bool)
| Int (n : Z)
| Num (q : Q)
| FontOf (f : Font.t)
| TitleOf (s : string).

(** An angle is kept in the interval from -180 to 180. *)
Definition angle (a : Z) : Z := (a + 180) mod 360 - 180.

(** One assignment: the path of a property and its new value. *)
Definition Edit : Type := string * Value.

(** The assignments one [update_layout] call makes, keyword by keyword:
    an underscore keyword names a nested property, a dictionary keyword
    assigns its entries one by one. *)
Definition keyword_edits (kw : LayoutArgs.t) : list Edit :=
  [ ("xaxis.title", TitleOf (LayoutArgs.xaxis_title kw));
    ("yaxis.title", TitleOf (LayoutArgs.yaxis_title kw));
    ("template", Text (LayoutArgs.template kw));
    ("title.font", FontOf (LayoutArgs.title_font kw));
    ("xaxis.title.font", FontOf (LayoutArgs.xaxis_title_font kw));
    ("yaxis.title.font", FontOf (LayoutArgs.yaxis_title_font kw));
    ("font.color", Text (LayoutArgs.font_color kw));
    ("yaxis.title", TitleOf (YAxis.title (LayoutArgs.yaxis kw)));
    ("yaxis.side", Text (YAxis.side (LayoutArgs.yaxis kw)));
    ("yaxis.color", Text (YAxis.color (LayoutArgs.yaxis kw)));
    ("yaxis.showgrid", Flag (YAxis.showgrid (LayoutArgs.yaxis kw)));
    ("xaxis.showgrid", Flag (XAxis.showgrid (LayoutArgs.xaxis kw)));
    ("xaxis.gridcolor", Text (XAxis.gridcolor (LayoutArgs.xaxis kw)));
    ("xaxis.tickangle", Int (angle (XAxis.tickangle (LayoutArgs.xaxis kw))));
    ("margin.t", Int (LayoutArgs.margin_t kw));
    ("title.x", Num (LayoutArgs.title_x kw)) ].

(** The assignments of one update are gathered in a dictionary in the
    order in which each path is first assigned: a path assigned again
    keeps its place and takes the new value. *)
Fixpoint gather (e : Edit) (edits : list Edit) : list Edit :=
  match edits with
  | [] => [e]
  | e' :: rest =>
      if String.eqb (fst e') (fst e) then e :: rest
      else e' :: gather e rest
  end.

(** [s] without the prefix [pre], if it starts with it. *)
Fixpoint strip (pre s : string) : option string :=
  match pre, s with
  | EmptyString, _ => Some s
  | String c pre', String d s' =>
      if Ascii.eqb c d then strip pre' s' else None
  | String _ _, EmptyString => None
  end.

Definition set_axis (a : Axis) (prop : string) (v : Value) : Axis :=
  match v with
  | TitleOf s =>
      if String.eqb prop "title"
      then mkAxis (mkTitle (Some s) None) (side a) (color a) (showgrid a)
             (gridcolor a) (tickangle a)
      else a
  | FontOf f =>
      if String.eqb prop "title.font"
      then mkAxis (mkTitle (text (title a)) (Some f)) (side a) (color a)
             (showgrid a) (gridcolor a) (tickangle a)
      else a
  | Text s =>
      if String.eqb prop "side"
      then mkAxis (title a) (Some s) (color a) (showgrid a) (gridcolor a)
             (tickangle a)
      else if String.eqb prop "color"
      then mkAxis (title a) (side a) (Some s) (showgrid a) (gridcolor a)
             (tickangle a)
      else if String.eqb prop "gridcolor"
      then mkAxis (title a) (side a) (color a) (showgrid a) (Some s)
             (tickangle a)
      else a
  | Flag b =>
      if String.eqb prop "showgrid"
      then mkAxis (title a) (side a) (color a) (Some b) (gridcolor a)
             (tickangle a)
      else a
  | Int n =>
      if String.eqb prop "tickangle"
      then mkAxis (title a) (side a) (color a) (showgrid a) (gridcolor a)
             (Some n)
      else a
  | Num _ => a
  end.

(** One gathered assignment applied to the layout. *)
Definition set_in (l : t) (e : Edit) : t :=
  let (path, v) := e in
  match strip "xaxis." path, strip "yaxis." path with
  | Some prop, _ =>
      mk (template l) (title_font l) (title_x l) (font_color l)
         (set_axis (xaxis l) prop v) (yaxis l) (margin_t l)
  | None, Some prop =>
      mk (template l) (title_font l) (title_x l) (font_color l)
         (xaxis l) (set_axis (yaxis l) prop v) (margin_t l)
  | None, None =>
      match v with
      | Text s =>
          if String.eqb path "template"
          then mk (Some s) (title_font l) (title_x l) (font_color l)
                 (xaxis l) (yaxis l) (margin_t l)
          else if String.eqb path "font.color"
          then mk (template l) (title_font l) (title_x l) (Some s)
                 (xaxis l) (yaxis l) (margin_t l)
          else l
      | FontOf f =>
          if String.eqb path "title.font"
          then mk (template l) (Some f) (title_x l) (font_color l)
                 (xaxis l) (yaxis l) (margin_t l)
          else l
      | Num q =>
          if String.eqb path "title.x"
          then mk (template l) (title_font l) (Some q) (font_color l)
                 (xaxis l) (yaxis l) (margin_t l)
          else l
      | Int n =>
          if String.eqb path "margin.t"
          then mk (template l) (title_font l) (title_x l) (font_color l)
                 (xaxis l) (yaxis l) (Some n)
          else l
      | Flag _ | TitleOf _ => l
      end
  end.

(** [layout.update] with the keywords [kw]: the assignments are gathered,
    then applied in the order of the dictionary. *)
Definition update (l : t) (kw : LayoutArgs.t) : t :=
  fold_left set_in
    (fold_left (fun edits e => gather e edits) (keyword_edits kw) []) l.
End Layout.

Module Figure.
(** [data] holds the traces added by [add_trace]; [layout] is [None]
    until [update_layout] is called. *)
Record t := mk { data : list Scatter.t; layout : option Layout.t }.

(** [go.Figure()] *)
Definition empty : t := {| data := []; layout := None |}.

Definition add_trace (fig : t) (tr : Scatter.t) : t :=
  {| data := (data fig ++ [tr])%list; layout := layout fig |}.

(** [fig.update_layout] with the keywords [kw]. *)
Definition update_layout (fig : t) (kw : LayoutArgs.t) : t :=
  {| data := data fig;
     layout :=
       Some (Layout.update
               (match layout fig with
                | Some l => l
                | None => Layout.empty
                end) kw) |}.
End Figure.

(** [dcc.send_bytes(pio.to_image(fig, format="svg"), filename)]: the figure
    that is serialised and the name of the attachment. *)
Record Download := mkDownload { serialised : Figure.t; filename : string }.

(** ** The store and the monad of the callbacks *)

Inductive Exn :=
| TypeError
| DanglingRef.

Inductive result (A : Type) :=
| Ok (a : A)
| Raise (e : Exn).
Arguments Ok {A} _.
Arguments Raise {A} _.

Definition Ref := nat.
Definition Store := list DataFrame.

Definition M (A : Type) := Store -> result A * Store.

Definition ret {A} (a : A) : M A := fun h => (Ok a, h).
Definition raise {A} (e : Exn) : M A := fun h => (Raise e, h).
Definition bind {A B} (m : M A) (k : A -> M B) : M B :=
  fun h =>
    match m h with
    | (Ok a, h') => k a h'
    | (Raise e, h') => (Raise e, h')
    end.

(** A computation that does not touch the store. *)
Definition lift {A} (r : result A) : M A := fun h => (r, h).

Notation "x <- m ;; k" := (bind m (fun x => k))
  (at level 61, m at next level, right associativity).

(** The module-level name [cpi_data] is bound to the first object. *)
Definition cpi_data : Ref := 0%nat.

Definition read (r : Ref) : M DataFrame :=
  fun h =>
    match nth_error h r with
    | Some df => (Ok df, h)
    | None => (Raise DanglingRef, h)
    end.

Definition alloc (df : DataFrame) : M Ref :=
  fun h => (Ok (List.length h), (h ++ [df])%list).

Module Df.
(** [df.copy()] *)
Definition copy (r : Ref) : M Ref := df <- read r ;; alloc df.

(** [df[mask]] with a boolean mask computed row by row from [df]. *)
Definition getitem_mask (r : Ref) (mask : Row -> bool) : M Ref :=
  df <- read r ;; alloc (filter mask df).

(** [df.sort_values(col)], not in place. *)
Definition sort_values (r : Ref) (col : Row -> string) : M Ref :=
  df <- read r ;; alloc (Pd.sort_values col df).

(** [df[col]] read as a sequence of values. *)
Definition column {A} (r : Ref) (col : Row -> A) : M (list A) :=
  df <- read r ;; ret (map col df).

(** [df[col].unique()] *)
Definition unique {A} (eqb : A -> A -> bool) (r : Ref) (col : Row -> A)
  : M (list A) :=
  df <- read r ;; ret (Pd.unique eqb (map col df)).

Fixpoint set_nth (n : nat) (df : DataFrame) (h : Store) : Store :=
  match h, n with
  | [], _ => []
  | _ :: h', O => df :: h'
  | d :: h', S n' => d :: set_nth n' df h'
  end.

(** [df[col] = ...]: the assignment of a column, in place.  The module
    level uses it on lines 42-47, before any callback runs; no callback
    does. *)
Definition setitem (r : Ref) (assign : Row -> Row) : M unit :=
  fun h =>
    match nth_error h r with
    | Some df => (Ok tt, set_nth r (map assign df) h)
    | None => (Raise DanglingRef, h)
    end.
End Df.

(** A callback run on a store that holds just the loaded table. *)
Definition run {A} (m : M A) (table : DataFrame) : result A * Store := m [table].
Definition eval {A} (m : M A) (table : DataFrame) : result A := fst (run m table).
Definition store_after {A} (m : M A) (table : DataFrame) : Store := snd (run m table).

(** The rows of the DataFrame a program returns a reference to. *)
Definition eval_df (m : M Ref) (table : DataFrame) : result DataFrame :=
  eval (r <- m ;; read r) table.

(** ** Python's operators at the types the callbacks meet *)

Module PyOps.

(** Truth value of a dropdown's value: [None] and [''] are false. *)
Definition truthy (v : option string) : bool :=
  match v with
  | Some EmptyString => false
  | Some _ => true
  | None => false
  end.

(** [(a, b, c, d) == (a', b', c', d')], the right-hand tuple made of texts. *)
Definition tuple4_eqb
    (l : option string * option string * option string * option string)
    (r : string * string * string * string) : bool :=
  let '(a, b, c, d) := l in
  let '(a', b', c', d') := r in
  Py.opt_eqb a (Some a') && Py.opt_eqb b (Some b')
  && Py.opt_eqb c (Some c') && Py.opt_eqb d (Some d').

(** [needle in selected_years]: a substring test on a text, membership
    in a list, [TypeError] on [None]. *)
Definition contains (needle : string) (sel : YearSelection) : result bool :=
  match sel with
  | SelNone => Raise TypeError
  | SelStr s => Ok (Py.contains needle s)
  | SelList l => Ok (Pd.mem pyval_eqb (PStr needle) l)
  end.

(** [for year in selected_years] *)
Definition iter (sel : YearSelection) : result (list PyVal) :=
  match sel with
  | SelNone => Raise TypeError
  | SelStr s => Ok (map PStr (Py.chars s))
  | SelList l => Ok l
  end.

(** [series.isin(values)] for one integer cell. *)
Definition isin (cell : Z) (values : list PyVal) : bool :=
  Pd.mem pyval_eqb (PInt cell) values.

(** [s.split('.')[0]] *)
Fixpoint split_dot_head (s : string) : string :=
  match s with
  | EmptyString => EmptyString
  | String c s' =>
      if Ascii.eqb c "."%char then EmptyString else String c (split_dot_head s')
  end.

End PyOps.

(** ** Lines 68-73 *)

Definition get_default_dropdown_values : string * string * string * string :=
  let default_state := "All India" in
  let default_sector := "Combined" in
  let default_group := "General" in
  let default_plot_type := "Index" in
  (default_state, default_sector, default_group, default_plot_type).

(** ** Menu callbacks *)

Definition select_all_option : DropdownOption PyVal :=
  mkOption (PStr "Select All") (PStr "Select All").

(** Lines 275-280. *)
Definition update_year_dropdown (selected_base_year : option string)
  : M (list (DropdownOption PyVal)) :=
  if PyOps.truthy selected_base_year then
    of_base <- Df.getitem_mask cpi_data
                 (fun r => Py.eq_opt (base_year r) selected_base_year) ;;
    filtered_years <- Df.unique Z.eqb of_base year ;;
    ret (select_all_option
         :: map (fun year => mkOption (PInt year) (PInt year))
                (Pd.sorted filtered_years))
  else
    years <- Df.unique Z.eqb cpi_data year ;;
    ret (select_all_option
         :: map (fun year => mkOption (PInt year) (PInt year)) (Pd.sorted years)).

(** Lines 288-291. *)
Definition update_sector_dropdown (selected_state : option string)
  : M (list (DropdownOption string)) :=
  filtered_df <- Df.getitem_mask cpi_data
                   (fun r => Py.eq_opt (state r) selected_state) ;;
  sectors <- Df.unique String.eqb filtered_df sector ;;
  ret (map (fun sector => mkOption sector sector) sectors).

(** Lines 298-303. *)
Definition update_group_dropdown (selected_sector : option string)
  : M (list (DropdownOption string)) :=
  filtered_df <- Df.copy cpi_data ;;
  filtered_df <-
    match selected_sector with
    | Some _ =>
        Df.getitem_mask filtered_df
          (fun r => Py.eq_opt (sector r) selected_sector)
    | None => ret filtered_df
    end ;;
  groups <- Df.unique String.eqb filtered_df grp ;;
  ret (map (fun group => mkOption group group) groups).

(** ** The year selection: lines 320-323 and, word for word, 404-407 *)

Definition resolve_years (selected_years : YearSelection) : M (list PyVal) :=
  all <- lift (PyOps.contains "Select All" selected_years) ;;
  if all : bool then
    years <- Df.unique Z.eqb cpi_data year ;;
    ret (map PInt years)
  else
    items <- lift (PyOps.iter selected_years) ;;
    ret (filter (fun year => negb (pyval_eqb year (PStr "Select All"))) items).

(** ** Apply: lines 317-382 *)

(** Lines 319-328: the rows left in [filtered_df]. *)
Definition update_plot_rows
    (state' sector' group : option string)
    (selected_years : YearSelection) (base : option string) : M Ref :=
  filtered_df <- Df.copy cpi_data ;;
  selected_years <- resolve_years selected_years ;;
  filtered_df <- Df.getitem_mask cpi_data
                   (fun r => PyOps.isin (year r) selected_years) ;;
  filtered_df <- Df.getitem_mask filtered_df
                   (fun r => Py.eq_opt (state r) state') ;;
  filtered_df <- Df.getitem_mask filtered_df
                   (fun r => Py.eq_opt (sector r) sector'
                             && Py.eq_opt (grp r) group
                             && Py.eq_opt (base_year r) base) ;;
  Df.sort_values filtered_df year_month2.

(** Lines 331-379: the figure drawn from [filtered_df]. *)
Definition update_plot_figure (filtered_df : Ref) (plot_type : option string)
  : M Figure.t :=
  let fig := Figure.empty in
  if Py.opt_eqb plot_type (Some "Index") then
    xs <- Df.column filtered_df year_month2 ;;
    ys <- Df.column filtered_df index ;;
    let fig := Figure.add_trace fig
      {| Scatter.x := xs; Scatter.y := ys;
         Scatter.mode := "lines+markers"; Scatter.name := "Index";
         Scatter.line_color := "#0F4366"; Scatter.yaxis := "y";
         Scatter.hovertemplate := "%{x}, Index %{y:.2f}<extra></extra>" |} in
    let fig := Figure.update_layout fig
      {| LayoutArgs.xaxis_title := "Year";
         LayoutArgs.yaxis_title := "Index";
         LayoutArgs.template := "plotly_white";
         LayoutArgs.title_font := Font.mk 25 "Arial, sans-serif" "black" "bold";
         LayoutArgs.xaxis_title_font := Font.mk 18 "Arial, sans-serif" "black" "bold";
         LayoutArgs.yaxis_title_font := Font.mk 18 "Arial, sans-serif" "black" "bold";
         LayoutArgs.font_color := "black";
         LayoutArgs.yaxis := YAxis.mk "<b>Index</b>" "left" "black" true;
         LayoutArgs.xaxis := XAxis.mk true "lightgray" 270;
         LayoutArgs.margin_t := 0;
         LayoutArgs.title_x := 0.5 |} in
    ret fig
  else
    xs <- Df.column filtered_df year_month2 ;;
    ys <- Df.column filtered_df inflation ;;
    let fig := Figure.add_trace fig
      {| Scatter.x := xs; Scatter.y := ys;
         Scatter.mode := "lines+markers"; Scatter.name := "Inflation";
         Scatter.line_color := "#EF553B"; Scatter.yaxis := "y";
         Scatter.hovertemplate := "%{x}, Inflation: %{y:.2f}%<extra></extra>" |} in
    let fig := Figure.update_layout fig
      {| LayoutArgs.xaxis_title := "Year";
         LayoutArgs.yaxis_title := "Inflation (in %)";
         LayoutArgs.template := "plotly_white";
         LayoutArgs.title_font := Font.mk 25 "Arial, sans-serif" "black" "bold";
         LayoutArgs.xaxis_title_font := Font.mk 18 "Arial, sans-serif" "black" "bold";
         LayoutArgs.yaxis_title_font := Font.mk 18 "Arial, sans-serif" "black" "bold";
         LayoutArgs.font_color := "black";
         LayoutArgs.yaxis := YAxis.mk "<b>Inflation</b>" "left" "black" true;
         LayoutArgs.xaxis := XAxis.mk true "lightgray" 270;
         LayoutArgs.margin_t := 0;
         LayoutArgs.title_x := 0.5 |} in
    ret fig.

Definition update_plot
    (n_clicks : Z) (state' sector' group plot_type : option string)
    (selected_years : YearSelection) (base : option string) : M Figure.t :=
  if (n_clicks >? 0)
     || PyOps.tuple4_eqb (state', sector', group, plot_type)
          get_default_dropdown_values
  then
    filtered_df <- update_plot_rows state' sector' group selected_years base ;;
    update_plot_figure filtered_df plot_type
  else
    ret Figure.empty.

(** ** Download: lines 396-473 *)

(** Lines 403-411: the rows left in [filtered_df]. *)
Definition download_plot_rows
    (state' sector' group : option string)
    (selected_years : YearSelection) (base : option string) : M Ref :=
  filtered_df <- Df.copy cpi_data ;;
  selected_years <- resolve_years selected_years ;;
  filtered_df <- Df.getitem_mask filtered_df
                   (fun r => Py.eq_opt (state r) state') ;;
  filtered_df <- Df.getitem_mask filtered_df
                   (fun r => Py.eq_opt (sector r) sector'
                             && Py.eq_opt (grp r) group
                             && Py.eq_opt (base_year r) base) ;;
  Df.sort_values filtered_df year_month2.

(** Lines 413-459: the figure that is serialised. *)
Definition download_plot_figure (filtered_df : Ref) (plot_type : option string)
  : M Figure.t :=
  let fig := Figure.empty in
  if Py.opt_eqb plot_type (Some "Index") then
    xs <- Df.column filtered_df year_month2 ;;
    ys <- Df.column filtered_df index ;;
    let fig := Figure.add_trace fig
      {| Scatter.x := xs; Scatter.y := ys;
         Scatter.mode := "lines+markers"; Scatter.name := "Index";
         Scatter.line_color := "#0F4366"; Scatter.yaxis := "y";
         Scatter.hovertemplate := "%{x}, Index %{y:.2f}<extra></extra>" |} in
    let fig := Figure.update_layout fig
      {| LayoutArgs.xaxis_title := "Year";
         LayoutArgs.yaxis_title := "Index";
         LayoutArgs.template := "plotly_white";
         LayoutArgs.title_font := Font.mk 25 "Arial, sans-serif" "black" "bold";
         LayoutArgs.xaxis_title_font := Font.mk 18 "Arial, sans-serif" "black" "bold";
         LayoutArgs.yaxis_title_font := Font.mk 18 "Arial, sans-serif" "black" "bold";
         LayoutArgs.font_color := "black";
         LayoutArgs.yaxis := YAxis.mk "<b>Index</b>" "left" "black" true;
         LayoutArgs.xaxis := XAxis.mk true "lightgray" 270;
         LayoutArgs.margin_t := 0;
         LayoutArgs.title_x := 0.5 |} in
    ret fig
  else if Py.opt_eqb plot_type (Some "Inflation") then
    xs <- Df.column filtered_df year_month2 ;;
    ys <- Df.column filtered_df inflation ;;
    let fig := Figure.add_trace fig
      {| Scatter.x := xs; Scatter.y := ys;
         Scatter.mode := "lines+markers"; Scatter.name := "Inflation";
         Scatter.line_color := "#EF553B"; Scatter.yaxis := "y";
         Scatter.hovertemplate := "%{x}, Inflation: %{y:.2f}%<extra></extra>" |} in
    let fig := Figure.update_layout fig
      {| LayoutArgs.xaxis_title := "Year";
         LayoutArgs.yaxis_title := "Inflation (in %)";
         LayoutArgs.template := "plotly_white";
         LayoutArgs.title_font := Font.mk 25 "Arial, sans-serif" "black" "bold";
         LayoutArgs.xaxis_title_font := Font.mk 18 "Arial, sans-serif" "black" "bold";
         LayoutArgs.yaxis_title_font := Font.mk 18 "Arial, sans-serif" "black" "bold";
         LayoutArgs.font_color := "black";
         LayoutArgs.yaxis := YAxis.mk "<b>Inflation</b>" "left" "black" true;
         LayoutArgs.xaxis := XAxis.mk true "lightgray" 270;
         LayoutArgs.margin_t := 0;
         LayoutArgs.title_x := 0.5 |} in
    ret fig
  else
    ret fig.

(** [triggered] lists the [prop_id]s of [dash.callback_context.triggered]. *)
Definition download_plot
    (triggered : list string) (download_clicks : Z)
    (state' sector' group plot_type : option string)
    (selected_years : YearSelection) (base : option string)
  : M (option Download) :=
  match triggered with
  | [] => ret None
  | prop_id :: _ =>
      let button_id := PyOps.split_dot_head prop_id in
      if String.eqb button_id "download-button" then
        filtered_df <-
          download_plot_rows state' sector' group selected_years base ;;
        fig <- download_plot_figure filtered_df plot_type ;;
        ret (Some (mkDownload fig "plot.svg"))
      else
        ret None
  end.

(** ** Notions the properties are stated with *)

(** The sentinel option of the year dropdown. *)
Definition sentinel : PyVal := PStr "Select All".

(** [int(s)] on a text of decimal digits. *)
Definition digit_value (c : ascii) : Z := Z.of_N (N_of_ascii c) - 48.

Fixpoint int_acc (acc : Z) (s : string) : Z :=
  match s with
  | EmptyString => acc
  | String c s' => int_acc (acc * 10 + digit_value c) s'
  end.

Definition int_of_text (s : string) : Z := int_acc 0 s.

(** The integer key of a row: [year * 100 + month_number]. *)
Definition year_month_key (r : Row) : Z :=
  year r * 100 + int_of_text (month_number r).

(** A raw row whose year has four digits and whose month is 1 to 12. *)
Definition well_dated (r : RawRow) : Prop :=
  1000 <= raw_year r <= 9999 /\ 1 <= raw_month_number r <= 12.

(** The five constraints of a filter specification on one row. *)
Definition matches
    (state' sector' group base : option string) (years : list PyVal) (r : Row)
  : Prop :=
  Some (state r) = state' /\ Some (sector r) = sector'
  /\ Some (grp r) = group /\ Some (base_year r) = base
  /\ In (PInt (year r)) years.

Definition matchesb
    (state' sector' group base : option string) (years : list PyVal) (r : Row)
  : bool :=
  Py.eq_opt (state r) state' && Py.eq_opt (sector r) sector'
  && Py.eq_opt (grp r) group && Py.eq_opt (base_year r) base
  && PyOps.isin (year r) years.

(** The built-in selection of the four single-value dropdowns. *)
Definition default_selection
  : option string * option string * option string * option string :=
  (Some "All India", Some "Combined", Some "General", Some "Index").

(** A figure that carries a trace and a layout. *)
Definition populated (fig : Figure.t) : Prop :=
  List.length (Figure.data fig) = 1%nat /\ Figure.layout fig <> None.

(** The points of a trace, as (x, y) pairs. *)
Definition points (tr : Scatter.t) : list (string * Q) :=
  combine (Scatter.x tr) (Scatter.y tr).

(** Everything of a trace but its data. *)
Definition trace_style (tr : Scatter.t)
  : string * string * string * string * string :=
  (Scatter.mode tr, Scatter.name tr, Scatter.line_color tr,
   Scatter.yaxis tr, Scatter.hovertemplate tr).

(** A program that only adds objects to the store: every object that was
    there is still there, unchanged and at the same place. *)
Definition preserves_store {A} (m : M A) : Prop :=
  forall h : Store, exists fresh : Store, snd (m h) = (h ++ fresh)%list.

(** Plotly writes a hover placeholder as [%{...}] and closes a template with
    [<extra></extra>] to drop the secondary box.  [hover_format] renders a
    template in the plain [{...}] notation. *)
Module Plotly.
Fixpoint drop_extra (s : string) : string :=
  if String.eqb s "<extra></extra>" then EmptyString
  else match s with
       | EmptyString => EmptyString
       | String c s' => String c (drop_extra s')
       end.

Fixpoint plain_placeholders (s : string) : string :=
  match s with
  | EmptyString => EmptyString
  | String c s' =>
      match s' with
      | String "{" _ =>
          if Ascii.eqb c "%" then plain_placeholders s'
          else String c (plain_placeholders s')
      | _ => String c (plain_placeholders s')
      end
  end.

Definition hover_format (template : string) : string :=
  plain_placeholders (drop_extra template).
End Plotly.

(** The decimal digit [d] as a character, and the fixed-width decimal
    texts of a four-digit and of a two-digit number. *)
Definition digit (d : Z) : ascii := ascii_of_N (Z.to_N (48 + d)).

Definition digits4 (n : Z) : string :=
  String (digit (n / 1000))
    (String (digit (n / 100 mod 10))
       (String (digit (n / 10 mod 10))
          (String (digit (n mod 10)) EmptyString))).

Definition digits2 (n : Z) : string :=
  String (digit (n / 10)) (String (digit (n mod 10)) EmptyString).

(** [f] holds of [count] consecutive integers from [start] on. *)
Fixpoint all_from (f : Z -> bool) (count : nat) (start : Z) : bool :=
  match count with
  | O => true
  | S c => f start && all_from f c (start + 1)
  end.

(** ** The two row selections as functions of the table

    What lines 319-328 and lines 403-411 leave in [filtered_df], given the
    list [years] the year selection resolved to.  They are shown below to
    be the values the two programs compute. *)

Definition apply_rows
    (table : DataFrame) (state' sector' group base : option string)
    (years : list PyVal) : DataFrame :=
  Pd.sort_values year_month2
    (filter (fun r => Py.eq_opt (sector r) sector' && Py.eq_opt (grp r) group
                      && Py.eq_opt (base_year r) base)
       (filter (fun r => Py.eq_opt (state r) state')
          (filter (fun r => PyOps.isin (year r) years) table))).

Definition download_rows
    (table : DataFrame) (state' sector' group base : option string)
  : DataFrame :=
  Pd.sort_values year_month2
    (filter (fun r => Py.eq_opt (sector r) sector' && Py.eq_opt (grp r) group
                      && Py.eq_opt (base_year r) base)
       (filter (fun r => Py.eq_opt (state r) state') table)).

(** ** Tables used as concrete inputs *)

Definition row_of
    (y : Z) (mname : string) (m : Z) (st sec g base : string) (infl idx : Q)
  : RawRow :=
  {| raw_year := y; raw_month := mname; raw_month_number := m;
     raw_state := st; raw_sector := sec; raw_grp := g;
     raw_subgroup := None; raw_base_year := base;
     raw_inflation := infl; raw_index := idx;
     raw_year_month := Py.str y ++ Py.str m;
     raw_xaxislabel := Py.str y ++ mname |}.

(** The two rows of the specification's example. *)
Definition raw_state_a : list RawRow :=
  [ row_of 2023 "January" 1 "StateA" "Combined" "General" "2012" 5.0 150.0;
    row_of 2023 "February" 2 "StateA" "Combined" "General" "2012" 5.3 151.0 ].

(** One series over two years. *)
Definition raw_two_years : list RawRow :=
  [ row_of 2023 "January" 1 "StateA" "Combined" "General" "2012" 5.0 150.0;
    row_of 2024 "January" 1 "StateA" "Combined" "General" "2012" 5.3 151.0 ].

(** Two base years, each with a year of its own. *)
Definition raw_two_bases : list RawRow :=
  [ row_of 2011 "January" 1 "StateA" "Combined" "General" "2010" 4.0 120.0;
    row_of 2013 "January" 1 "StateA" "Combined" "General" "2012" 5.0 105.0 ].

Definition table_state_a : DataFrame := load raw_state_a.
Definition table_two_years : DataFrame := load raw_two_years.
Definition table_two_bases : DataFrame := load raw_two_bases.

(** The series over two years with the later row first: normalised rows
    that have not been put in date order. *)
Definition table_out_of_order : DataFrame :=
  map normalise
    [ row_of 2024 "January" 1 "StateA" "Combined" "General" "2012" 5.3 151.0;
      row_of 2023 "January" 1 "StateA" "Combined" "General" "2012" 5.0 150.0 ].

(** ** Module level: the menus of the page as first laid out *)

Module Np.
(** [np.unique(xs)] on texts: the distinct values, in ascending order. *)
Definition unique (xs : list string) : list string :=
  Pd.sort_by String.leb (fun x => x) (Pd.unique String.eqb xs).
End Np.

(** Line 99: the options of the state dropdown. *)
Definition state_options (table : DataFrame) : list (DropdownOption string) :=
  map (fun state => mkOption state state) (Np.unique (map state table)).

(** Line 113: the options of the base-year dropdown. *)
Definition base_year_options (table : DataFrame)
  : list (DropdownOption string) :=
  map (fun base => mkOption base base) (Np.unique (map base_year table)).

(** Lines 171-173: the options of the year dropdown before its callback
    has run. *)
Definition initial_year_options (table : DataFrame)
  : list (DropdownOption PyVal) :=
  select_all_option
  :: map (fun year => mkOption (PInt year) (PInt year))
         (Pd.unique Z.eqb (map year table)).

(** * Properties *)

(** ** [unique] *)

Section UniqueFacts.
Context {A : Type} (eqb : A -> A -> bool).
Hypothesis eqb_true : forall a b, eqb a b = true <-> a = b.

Lemma mem_In (a : A) (l : list A) : Pd.mem eqb a l = true <-> In a l.
Proof.
  unfold Pd.mem. rewrite existsb_exists. split.
  - intros [b [Hb He]]. apply eqb_true in He. now subst.
  - intros H. exists a. split; [assumption | now apply eqb_true].
Qed.

Lemma unique_acc_In (l seen : list A) (a : A) :
  In a (Pd.unique_acc eqb seen l) <-> In a l /\ ~ In a seen.
Proof.
  revert seen. induction l as [|b l IH]; intros seen; simpl.
  - tauto.
  - destruct (Pd.mem eqb b seen) eqn:Hm.
    + apply mem_In in Hm. rewrite IH. split.
      * intros [H1 H2]. tauto.
      * intros [[->|H1] H2]; [contradiction | tauto].
    + assert (Hn : ~ In b seen).
      { intros Hin. apply mem_In in Hin. congruence. }
      simpl. rewrite IH. simpl. split.
      * intros [->|[H1 H2]]; [tauto|]. split; [tauto|]. intros H. apply H2. now right.
      * intros [[->|H1] H2]; [now left|].
        destruct (eqb b a) eqn:E.
        -- apply eqb_true in E. now left.
        -- right. split; [assumption|]. intros [->|H]; [|contradiction].
           assert (eqb a a = true) by now apply eqb_true. congruence.
Qed.

Lemma unique_In (l : list A) (a : A) : In a (Pd.unique eqb l) <-> In a l.
Proof. unfold Pd.unique. rewrite unique_acc_In. simpl. tauto. Qed.

Lemma unique_acc_NoDup (l seen : list A) : NoDup (Pd.unique_acc eqb seen l).
Proof.
  revert seen. induction l as [|b l IH]; intros seen; simpl.
  - constructor.
  - destruct (Pd.mem eqb b seen); [apply IH|].
    constructor; [|apply IH].
    rewrite unique_acc_In. simpl. tauto.
Qed.

Lemma unique_NoDup (l : list A) : NoDup (Pd.unique eqb l).
Proof. apply unique_acc_NoDup. Qed.
End UniqueFacts.

Lemma Z_eqb_true (a b : Z) : Z.eqb a b = true <-> a = b.
Proof. apply Z.eqb_eq. Qed.

Lemma pyval_eqb_true (a b : PyVal) : pyval_eqb a b = true <-> a = b.
Proof.
  destruct a, b; simpl; split; intros H; try discriminate.
  - apply Z.eqb_eq in H. now subst.
  - injection H as ->. apply Z.eqb_refl.
  - apply String.eqb_eq in H. now subst.
  - injection H as ->. apply String.eqb_refl.
Qed.

Lemma eq_opt_true (a : string) (b : option string) :
  Py.eq_opt a b = true <-> Some a = b.
Proof.
  destruct b as [s|]; simpl.
  - rewrite String.eqb_eq. split; congruence.
  - split; discriminate.
Qed.

Lemma opt_eqb_true (a b : option string) : Py.opt_eqb a b = true <-> a = b.
Proof.
  destruct a, b; simpl; try rewrite String.eqb_eq;
    split; intros; congruence.
Qed.

Lemma isin_In (y : Z) (values : list PyVal) :
  PyOps.isin y values = true <-> In (PInt y) values.
Proof. unfold PyOps.isin. apply (mem_In pyval_eqb pyval_eqb_true). Qed.

Lemma matchesb_true st sec g base ys r :
  matchesb st sec g base ys r = true <-> matches st sec g base ys r.
Proof.
  unfold matchesb, matches.
  rewrite !andb_true_iff, !eq_opt_true, isin_In. tauto.
Qed.

(** ** Sorting *)

Section SortFacts.
Context {A K : Type} (leb : K -> K -> bool) (key : A -> K).

Lemma insert_perm (a : A) (l : list A) :
  Permutation (Pd.insert leb key a l) (a :: l).
Proof.
  induction l as [|b l IH]; simpl.
  - apply Permutation_refl.
  - destruct (leb (key a) (key b)).
    + apply Permutation_refl.
    + eapply perm_trans; [apply perm_skip, IH | apply perm_swap].
Qed.

Lemma sort_by_perm (l : list A) : Permutation (Pd.sort_by leb key l) l.
Proof.
  induction l as [|a l IH]; simpl.
  - constructor.
  - eapply perm_trans; [apply insert_perm | now apply perm_skip].
Qed.

Lemma sort_by_In (l : list A) (a : A) : In a (Pd.sort_by leb key l) <-> In a l.
Proof.
  split; apply Permutation_in;
    [apply sort_by_perm | apply Permutation_sym, sort_by_perm].
Qed.

Lemma sort_by_length (l : list A) :
  List.length (Pd.sort_by leb key l) = List.length l.
Proof. apply Permutation_length, sort_by_perm. Qed.

Hypothesis leb_total : forall x y, leb x y = true \/ leb y x = true.

Lemma insert_sorted (a : A) (l : list A) :
  Sorted (Pd.key_le leb key) l -> Sorted (Pd.key_le leb key) (Pd.insert leb key a l).
Proof.
  induction 1 as [|b l Hs IH Hh]; simpl.
  - repeat constructor.
  - destruct (leb (key a) (key b)) eqn:E.
    + constructor; [now constructor | now constructor].
    + constructor; [assumption|].
      assert (Hba : Pd.key_le leb key b a).
      { destruct (leb_total (key a) (key b)); [congruence | assumption]. }
      destruct Hh as [|c l' Hbc]; simpl.
      * now constructor.
      * destruct (leb (key a) (key c)); now constructor.
Qed.

Lemma sort_by_sorted (l : list A) : Sorted (Pd.key_le leb key) (Pd.sort_by leb key l).
Proof.
  induction l as [|a l IH]; simpl.
  - constructor.
  - now apply insert_sorted.
Qed.
End SortFacts.

(** ** Running the programs *)

Lemma resolve_years_frame sel table rest :
  resolve_years sel (table :: rest)
  = (eval (resolve_years sel) table, table :: rest).
Proof.
  unfold eval, run, resolve_years, bind, lift.
  destruct (PyOps.contains "Select All" sel) as [[|]|e]; cbn; try reflexivity.
  destruct (PyOps.iter sel); reflexivity.
Qed.

Lemma resolve_years_eval sel table :
  eval (resolve_years sel) table =
  match PyOps.contains "Select All" sel with
  | Ok true => Ok (map PInt (Pd.unique Z.eqb (map year table)))
  | Ok false =>
      match PyOps.iter sel with
      | Ok items =>
          Ok (filter (fun v => negb (pyval_eqb v sentinel)) items)
      | Raise e => Raise e
      end
  | Raise e => Raise e
  end.
Proof.
  unfold eval, run, resolve_years, bind, lift.
  destruct (PyOps.contains "Select All" sel) as [[|]|e]; cbn; try reflexivity.
  destruct (PyOps.iter sel); reflexivity.
Qed.

Lemma resolve_years_ok sel table :
  sel <> SelNone -> exists ys, eval (resolve_years sel) table = Ok ys.
Proof.
  intros H. rewrite resolve_years_eval.
  destruct sel as [|s|l]; [congruence| |]; cbn.
  - destruct (Py.contains "Select All" s); eauto.
  - destruct (Pd.mem pyval_eqb (PStr "Select All") l); eauto.
Qed.

Lemma update_plot_rows_run table st sec g sel base ys :
  eval (resolve_years sel) table = Ok ys ->
  exists tmp,
    update_plot_rows st sec g sel base [table]
    = (Ok (List.length ([table] ++ tmp)),
       ([table] ++ tmp ++ [apply_rows table st sec g base ys])%list).
Proof.
  intros H. unfold update_plot_rows.
  unfold bind at 1 2. cbn [Df.copy bind read alloc cpi_data nth_error app List.length].
  unfold bind at 1. rewrite resolve_years_frame, H.
  eexists [_; _; _; _]. reflexivity.
Qed.

Lemma update_plot_rows_raise table st sec g sel base e :
  eval (resolve_years sel) table = Raise e ->
  eval (update_plot_rows st sec g sel base) table = Raise e.
Proof.
  intros H. unfold eval, run, update_plot_rows.
  unfold bind at 1 2. cbn [Df.copy bind read alloc cpi_data nth_error app List.length].
  unfold bind at 1. rewrite resolve_years_frame, H.
  reflexivity.
Qed.

Lemma download_plot_rows_run table st sec g sel base ys :
  eval (resolve_years sel) table = Ok ys ->
  exists tmp,
    download_plot_rows st sec g sel base [table]
    = (Ok (List.length ([table] ++ tmp)),
       ([table] ++ tmp ++ [download_rows table st sec g base])%list).
Proof.
  intros H. unfold download_plot_rows.
  unfold bind at 1 2. cbn [Df.copy bind read alloc cpi_data nth_error app List.length].
  unfold bind at 1. rewrite resolve_years_frame, H.
  eexists [_; _; _]. reflexivity.
Qed.

Lemma read_last (h : Store) (df : DataFrame) :
  read (List.length h) (h ++ [df])%list = (Ok df, (h ++ [df])%list).
Proof.
  unfold read. rewrite nth_error_app2 by lia.
  now rewrite Nat.sub_diag.
Qed.

Lemma nth_error_last (h : Store) (df : DataFrame) :
  nth_error (h ++ [df]) (List.length h) = Some df.
Proof. rewrite nth_error_app2 by lia. now rewrite Nat.sub_diag. Qed.

Lemma update_plot_rows_eval table st sec g sel base ys :
  eval (resolve_years sel) table = Ok ys ->
  eval_df (update_plot_rows st sec g sel base) table
  = Ok (apply_rows table st sec g base ys).
Proof.
  intros H.
  destruct (update_plot_rows_run table st sec g sel base ys H) as [tmp E].
  unfold eval_df, eval, run, bind. rewrite E.
  rewrite app_assoc, read_last. reflexivity.
Qed.

Lemma download_plot_rows_eval table st sec g sel base ys :
  eval (resolve_years sel) table = Ok ys ->
  eval_df (download_plot_rows st sec g sel base) table
  = Ok (download_rows table st sec g base).
Proof.
  intros H.
  destruct (download_plot_rows_run table st sec g sel base ys H) as [tmp E].
  unfold eval_df, eval, run, bind. rewrite E.
  rewrite app_assoc, read_last. reflexivity.
Qed.

(** The figure programs read one object and leave the store as it is. *)
Lemma update_plot_figure_run (h : Store) (ref : Ref) rows plot_type :
  nth_error h ref = Some rows ->
  update_plot_figure ref plot_type h
  = (eval (update_plot_figure cpi_data plot_type) rows, h).
Proof.
  intros H. unfold eval, run, update_plot_figure, Df.column, bind, read, ret.
  destruct (Py.opt_eqb plot_type (Some "Index"));
    rewrite H; cbn; rewrite H; reflexivity.
Qed.

Lemma download_plot_figure_run (h : Store) (ref : Ref) rows plot_type :
  nth_error h ref = Some rows ->
  download_plot_figure ref plot_type h
  = (eval (download_plot_figure cpi_data plot_type) rows, h).
Proof.
  intros H. unfold eval, run, download_plot_figure, Df.column, bind, read, ret.
  destruct (Py.opt_eqb plot_type (Some "Index")).
  - rewrite H. cbn. rewrite H. reflexivity.
  - destruct (Py.opt_eqb plot_type (Some "Inflation")).
    + rewrite H. cbn. rewrite H. reflexivity.
    + reflexivity.
Qed.

Lemma update_plot_figure_ok rows plot_type :
  exists fig, eval (update_plot_figure cpi_data plot_type) rows = Ok fig.
Proof.
  unfold eval, run, update_plot_figure.
  destruct (Py.opt_eqb plot_type (Some "Index")); cbn; eauto.
Qed.

(** [update_plot] past its gate: the figure of the selected rows. *)
Lemma update_plot_eval table n st sec g pt sel base ys :
  eval (resolve_years sel) table = Ok ys ->
  (n >? 0) || PyOps.tuple4_eqb (st, sec, g, pt) get_default_dropdown_values
  = true ->
  eval (update_plot n st sec g pt sel base) table
  = eval (update_plot_figure cpi_data pt) (apply_rows table st sec g base ys).
Proof.
  intros H Hg. unfold update_plot. rewrite Hg.
  destruct (update_plot_rows_run table st sec g sel base ys H) as [tmp E].
  unfold eval at 1. unfold run, bind. rewrite E.
  rewrite app_assoc.
  erewrite update_plot_figure_run by apply nth_error_last.
  reflexivity.
Qed.

Lemma update_plot_closed table n st sec g pt sel base :
  (n >? 0) || PyOps.tuple4_eqb (st, sec, g, pt) get_default_dropdown_values
  = false ->
  eval (update_plot n st sec g pt sel base) table = Ok Figure.empty.
Proof. intros Hg. unfold update_plot. rewrite Hg. reflexivity. Qed.

Lemma download_plot_eval table prop_id rest clicks st sec g pt sel base ys :
  eval (resolve_years sel) table = Ok ys ->
  PyOps.split_dot_head prop_id = "download-button" ->
  eval (download_plot (prop_id :: rest) clicks st sec g pt sel base) table
  = match eval (download_plot_figure cpi_data pt)
            (download_rows table st sec g base) with
    | Ok fig => Ok (Some (mkDownload fig "plot.svg"))
    | Raise e => Raise e
    end.
Proof.
  intros H Hb. unfold download_plot. rewrite Hb. cbn [String.eqb Ascii.eqb Bool.eqb].
  destruct (download_plot_rows_run table st sec g sel base ys H) as [tmp E].
  unfold eval at 1. unfold run. unfold bind at 1. rewrite E.
  rewrite app_assoc. unfold bind.
  erewrite download_plot_figure_run by apply nth_error_last.
  destruct (eval (download_plot_figure cpi_data pt) _); reflexivity.
Qed.

(** ** What the two selections contain *)

Lemma apply_rows_In table st sec g base ys r :
  In r (apply_rows table st sec g base ys)
  <-> In r table /\ matches st sec g base ys r.
Proof.
  unfold apply_rows, Pd.sort_values, matches.
  rewrite sort_by_In, !filter_In, !andb_true_iff, !eq_opt_true, isin_In.
  tauto.
Qed.

Lemma filter_filter {A} (p q : A -> bool) (l : list A) :
  filter p (filter q l) = filter (fun a => q a && p a) l.
Proof.
  induction l as [|a l IH]; simpl; [reflexivity|].
  destruct (q a); simpl; [destruct (p a)|]; now rewrite ?IH.
Qed.

Lemma apply_rows_perm table st sec g base ys :
  Permutation (apply_rows table st sec g base ys)
              (filter (matchesb st sec g base ys) table).
Proof.
  unfold apply_rows, Pd.sort_values.
  eapply perm_trans; [apply sort_by_perm|].
  rewrite !filter_filter.
  erewrite filter_ext; [apply Permutation_refl|].
  intros r. unfold matchesb.
  destruct (PyOps.isin (year r) ys), (Py.eq_opt (state r) st),
    (Py.eq_opt (sector r) sec), (Py.eq_opt (grp r) g),
    (Py.eq_opt (base_year r) base); reflexivity.
Qed.

Lemma download_rows_In table st sec g base r :
  In r (download_rows table st sec g base)
  <-> In r table /\ Some (state r) = st /\ Some (sector r) = sec
      /\ Some (grp r) = g /\ Some (base_year r) = base.
Proof.
  unfold download_rows, Pd.sort_values.
  rewrite sort_by_In, !filter_In, !andb_true_iff, !eq_opt_true.
  tauto.
Qed.

(** X11: for a year selection that is set, the rows the Apply path keeps
    are exactly the rows of the table that meet the five constraints, each
    as often as the table holds it. *)
Lemma update_plot_rows_exact table st sec g sel base :
  sel <> SelNone ->
  exists ys rows,
    eval (resolve_years sel) table = Ok ys
    /\ eval_df (update_plot_rows st sec g sel base) table = Ok rows
    /\ Permutation rows (filter (matchesb st sec g base ys) table)
    /\ forall r, In r rows <-> In r table /\ matches st sec g base ys r.
Proof.
  intros H. destruct (resolve_years_ok sel table H) as [ys Hys].
  exists ys, (apply_rows table st sec g base ys).
  split; [assumption|]. split; [now apply update_plot_rows_eval|].
  split; [apply apply_rows_perm | intros r; apply apply_rows_In].
Qed.

(** The Download path keeps the rows that meet the four equalities,
    whatever their year. *)
Lemma download_plot_rows_exact table st sec g sel base :
  sel <> SelNone ->
  exists rows,
    eval_df (download_plot_rows st sec g sel base) table = Ok rows
    /\ forall r, In r rows
         <-> In r table /\ Some (state r) = st /\ Some (sector r) = sec
             /\ Some (grp r) = g /\ Some (base_year r) = base.
Proof.
  intros H. destruct (resolve_years_ok sel table H) as [ys Hys].
  exists (download_rows table st sec g base).
  split; [now apply (download_plot_rows_eval _ _ _ _ _ _ ys)|].
  intros r; apply download_rows_In.
Qed.

(** ** The resolved year set *)

Lemma all_years_spec (table : DataFrame) :
  let ys := map PInt (Pd.unique Z.eqb (map year table)) in
  NoDup ys /\ forall v, In v ys <-> exists r, In r table /\ v = PInt (year r).
Proof.
  cbn zeta. split.
  - apply Finite.Injective_map_NoDup.
    + intros a b E. now injection E.
    + apply unique_NoDup, Z.eqb_eq.
  - intros v. rewrite in_map_iff. split.
    + intros [y [<- Hy]]. rewrite (unique_In Z.eqb Z.eqb_eq) in Hy.
      apply in_map_iff in Hy. destruct Hy as [r [<- Hr]]. eauto.
    + intros [r [Hr ->]]. exists (year r). split; [reflexivity|].
      rewrite (unique_In Z.eqb Z.eqb_eq). now apply in_map.
Qed.

Lemma filter_sentinel_In (l : list PyVal) (v : PyVal) :
  In v (filter (fun v => negb (pyval_eqb v sentinel)) l)
  <-> In v l /\ v <> sentinel.
Proof.
  rewrite filter_In, negb_true_iff. split; intros [H1 H2]; split; trivial.
  - intros E. apply pyval_eqb_true in E. congruence.
  - destruct (pyval_eqb v sentinel) eqn:E; [|reflexivity].
    apply pyval_eqb_true in E. contradiction.
Qed.

Lemma filter_sentinel_id (l : list PyVal) :
  ~ In sentinel l -> filter (fun v => negb (pyval_eqb v sentinel)) l = l.
Proof.
  intros H. induction l as [|a l IH]; simpl; [reflexivity|].
  destruct (pyval_eqb a sentinel) eqn:E; simpl.
  - apply pyval_eqb_true in E. subst. exfalso. apply H. now left.
  - f_equal. apply IH. intros Hin. apply H. now right.
Qed.

(** C5: a year selection that is the sentinel, or a list that contains it,
    resolves to every distinct year present in the whole table; a list
    without the sentinel resolves to that list with the sentinel value
    filtered out (which leaves the list as it is). *)
Theorem resolve_years_cases (table : DataFrame) (sel : YearSelection) :
  sel <> SelNone ->
  exists ys,
    eval (resolve_years sel) table = Ok ys
    /\ match sel with
       | SelNone => False
       | SelStr s =>
           s = "Select All" ->
           NoDup ys
           /\ forall v, In v ys <-> exists r, In r table /\ v = PInt (year r)
       | SelList l =>
           (In sentinel l ->
            NoDup ys
            /\ forall v, In v ys <-> exists r, In r table /\ v = PInt (year r))
           /\ (~ In sentinel l ->
               ys = filter (fun v => negb (pyval_eqb v sentinel)) l
               /\ ys = l
               /\ forall v, In v ys <-> In v l /\ v <> sentinel)
       end.
Proof.
  intros Hsel. destruct (resolve_years_ok sel table Hsel) as [ys Hys].
  exists ys. split; [assumption|].
  rewrite resolve_years_eval in Hys.
  destruct sel as [|s|l]; [congruence| |].
  - intros ->. cbn in Hys. injection Hys as <-. apply all_years_spec.
  - cbn in Hys. fold sentinel in Hys.
    destruct (Pd.mem pyval_eqb sentinel l) eqn:E.
    + injection Hys as <-. split.
      * intros _. apply all_years_spec.
      * intros Hn. exfalso. apply Hn.
        now apply (mem_In pyval_eqb pyval_eqb_true).
    + injection Hys as <-. split.
      * intros Hin. apply (mem_In pyval_eqb pyval_eqb_true) in Hin. congruence.
      * intros Hn. split; [reflexivity|]. split.
        -- now apply filter_sentinel_id.
        -- intros v. apply filter_sentinel_In.
Qed.

Lemma resolve_years_cases_witness :
  SelList [PInt 2023; sentinel] <> SelNone
  /\ exists ys,
       eval (resolve_years (SelList [PInt 2023; sentinel])) table_two_years
       = Ok ys
       /\ (In sentinel [PInt 2023; sentinel] ->
           NoDup ys
           /\ forall v, In v ys
                <-> exists r, In r table_two_years /\ v = PInt (year r))
       /\ (~ In sentinel [PInt 2023; sentinel] ->
           ys = filter (fun v => negb (pyval_eqb v sentinel))
                  [PInt 2023; sentinel]
           /\ ys = [PInt 2023; sentinel]
           /\ forall v, In v ys <-> In v [PInt 2023; sentinel] /\ v <> sentinel).
Proof.
  split; [discriminate|].
  apply (resolve_years_cases table_two_years (SelList [PInt 2023; sentinel])).
  discriminate.
Defined.

(** With base year 2012 selected, resolving the sentinel on a table that
    also holds a 2011 row of base year 2010 yields 2011 as well, a year no
    row of base year 2012 has. *)
Lemma select_all_reaches_other_base_years :
  exists ys,
    eval (resolve_years (SelStr "Select All")) table_two_bases = Ok ys
    /\ In (PInt 2011) ys
    /\ ~ exists r,
           In r table_two_bases /\ base_year r = "2012" /\ year r = 2011.
Proof.
  exists [PInt 2011; PInt 2013]. split; [reflexivity|]. split; [now left|].
  intros [r [Hr [Hb Hy]]]. cbn in Hr.
  destruct Hr as [<-|[<-|[]]]; cbn in Hb, Hy; discriminate.
Qed.

(** C3 (as amended): resolving the year sentinel yields exactly the set of
    years present in the whole table, whatever base year is selected.  It
    holds every year of the rows with the selected base year, and the rows
    the Apply path then keeps are those of the table that meet the four
    equalities, the base year among them. *)
Theorem select_all_resolves_to_whole_table
    (table : DataFrame) (sel : YearSelection) :
  PyOps.contains "Select All" sel = Ok true ->
  exists ys,
    eval (resolve_years sel) table = Ok ys
    /\ NoDup ys
    /\ (forall v, In v ys <-> exists r, In r table /\ v = PInt (year r))
    /\ (forall base r,
          In r table -> base_year r = base -> In (PInt (year r)) ys)
    /\ (forall st sec g base r,
          In r (apply_rows table st sec g base ys)
          <-> In r table /\ Some (state r) = st /\ Some (sector r) = sec
              /\ Some (grp r) = g /\ Some (base_year r) = base).
Proof.
  intros H. exists (map PInt (Pd.unique Z.eqb (map year table))).
  rewrite resolve_years_eval, H.
  destruct (all_years_spec table) as [Hnd Hin].
  split; [reflexivity|]. split; [exact Hnd|]. split; [exact Hin|].
  split.
  - intros base r Hr _. apply Hin. eauto.
  - intros st sec g base r. rewrite apply_rows_In. unfold matches.
    split; [tauto|]. intros [Hr Hm]. split; [assumption|].
    repeat split; try tauto. apply Hin. eauto.
Qed.

Lemma select_all_resolves_to_whole_table_witness :
  PyOps.contains "Select All" (SelStr "Select All") = Ok true
  /\ exists ys,
       eval (resolve_years (SelStr "Select All")) table_two_bases = Ok ys
       /\ NoDup ys
       /\ (forall v, In v ys
             <-> exists r, In r table_two_bases /\ v = PInt (year r))
       /\ (forall base r,
             In r table_two_bases -> base_year r = base ->
             In (PInt (year r)) ys)
       /\ (forall st sec g base r,
             In r (apply_rows table_two_bases st sec g base ys)
             <-> In r table_two_bases /\ Some (state r) = st
                 /\ Some (sector r) = sec
                 /\ Some (grp r) = g /\ Some (base_year r) = base).
Proof.
  split; [reflexivity|].
  apply (select_all_resolves_to_whole_table table_two_bases
           (SelStr "Select All")).
  reflexivity.
Defined.

(** ** Sector menu *)

Lemma update_sector_dropdown_eval table st :
  eval (update_sector_dropdown st) table
  = Ok (map (fun s => mkOption s s)
          (Pd.unique String.eqb
             (map sector (filter (fun r => Py.eq_opt (state r) st) table)))).
Proof. reflexivity. Qed.

(** The sectors offered for "StateA" are not among those offered for an
    unset state: the latter are none at all. *)
Lemma sectors_of_state_not_within_sectors_of_none :
  exists of_state of_none o,
    eval (update_sector_dropdown (Some "StateA")) table_state_a = Ok of_state
    /\ eval (update_sector_dropdown None) table_state_a = Ok of_none
    /\ In o of_state /\ ~ In o of_none.
Proof.
  exists [mkOption "Combined" "Combined"], [], (mkOption "Combined" "Combined").
  split; [reflexivity|]. split; [reflexivity|]. split; [now left|].
  intros [].
Qed.

(** C6 (as amended): for every table and state, the sectors offered are
    exactly the sectors of the rows whose state is the selected one, each
    once, hence sectors observed in the whole table; for an unset state no
    row qualifies and no sector is offered. *)
Theorem update_sector_dropdown_sectors
    (table : DataFrame) (selected_state : option string) :
  exists opts,
    eval (update_sector_dropdown selected_state) table = Ok opts
    /\ NoDup opts
    /\ (forall o, In o opts
          <-> exists r, In r table /\ Some (state r) = selected_state
                        /\ o = mkOption (sector r) (sector r))
    /\ (forall o, In o opts ->
          exists r, In r table /\ label o = sector r /\ value o = sector r)
    /\ eval (update_sector_dropdown None) table = Ok [].
Proof.
  eexists. split; [apply update_sector_dropdown_eval|].
  assert (Hin : forall o,
    In o (map (fun s => mkOption s s)
            (Pd.unique String.eqb
               (map sector
                  (filter (fun r => Py.eq_opt (state r) selected_state) table))))
    <-> exists r, In r table /\ Some (state r) = selected_state
                  /\ o = mkOption (sector r) (sector r)).
  { intros o. rewrite in_map_iff. split.
    - intros [s [<- Hs]]. rewrite (unique_In String.eqb String.eqb_eq) in Hs.
      apply in_map_iff in Hs. destruct Hs as [r [<- Hr]].
      apply filter_In in Hr. destruct Hr as [Hr He].
      apply eq_opt_true in He. eauto.
    - intros [r [Hr [He ->]]]. exists (sector r). split; [reflexivity|].
      rewrite (unique_In String.eqb String.eqb_eq). apply in_map.
      apply filter_In. split; [assumption | now apply eq_opt_true]. }
  split.
  - apply Finite.Injective_map_NoDup.
    + intros a b E. now injection E.
    + apply unique_NoDup, String.eqb_eq.
  - split; [exact Hin|]. split.
    + intros o Ho. apply Hin in Ho. destruct Ho as [r [Hr [_ ->]]].
      exists r. auto.
    + rewrite update_sector_dropdown_eval.
      replace (filter (fun r => Py.eq_opt (state r) None) table)
        with (@nil Row); [reflexivity|].
      clear Hin. induction table as [|r t IH]; simpl; [reflexivity | exact IH].
Qed.

(** ** Projection *)

Lemma combine_map {A B C} (f : A -> B) (g : A -> C) (l : list A) :
  combine (map f l) (map g l) = map (fun a => (f a, g a)) l.
Proof. induction l as [|a l IH]; simpl; [reflexivity | now rewrite IH]. Qed.

(** X22: on every ordered row sequence the figure program yields one trace
    with one (x, y) pair per row, in the given order: x is the row's
    year-month label and y its index value for indicator Index, its
    inflation value for indicator Inflation; the hover formats are
    "{x}, Index {y:.2f}" and "{x}, Inflation: {y:.2f}%".  The series is as
    long as the input and in its order. *)
Theorem update_plot_figure_projection
    (h : Store) (filtered_df : Ref) (rows : DataFrame) :
  nth_error h filtered_df = Some rows ->
  (exists tr l,
     update_plot_figure filtered_df (Some "Index") h
     = (Ok {| Figure.data := [tr]; Figure.layout := Some l |}, h)
     /\ points tr = map (fun r => (year_month2 r, index r)) rows
     /\ List.length (points tr) = List.length rows
     /\ Scatter.hovertemplate tr = "%{x}, Index %{y:.2f}<extra></extra>"
     /\ Plotly.hover_format (Scatter.hovertemplate tr) = "{x}, Index {y:.2f}")
  /\ (exists tr l,
        update_plot_figure filtered_df (Some "Inflation") h
        = (Ok {| Figure.data := [tr]; Figure.layout := Some l |}, h)
        /\ points tr = map (fun r => (year_month2 r, inflation r)) rows
        /\ List.length (points tr) = List.length rows
        /\ Scatter.hovertemplate tr
           = "%{x}, Inflation: %{y:.2f}%<extra></extra>"
        /\ Plotly.hover_format (Scatter.hovertemplate tr)
           = "{x}, Inflation: {y:.2f}%").
Proof.
  intros H. split; do 2 eexists;
    (split; [rewrite (update_plot_figure_run h filtered_df rows _ H);
             reflexivity|]);
    unfold points; cbn [Scatter.x Scatter.y Scatter.hovertemplate];
    rewrite combine_map, length_map; repeat split; reflexivity.
Qed.

Lemma update_plot_figure_projection_witness :
  nth_error [table_state_a] cpi_data = Some table_state_a
  /\ (exists tr l,
        update_plot_figure cpi_data (Some "Index") [table_state_a]
        = (Ok {| Figure.data := [tr]; Figure.layout := Some l |},
           [table_state_a])
        /\ points tr = [("2023-01", 150.0%Q); ("2023-02", 151.0%Q)])
  /\ (exists tr l,
        update_plot_figure cpi_data (Some "Inflation") [table_state_a]
        = (Ok {| Figure.data := [tr]; Figure.layout := Some l |},
           [table_state_a])
        /\ points tr = [("2023-01", 5.0%Q); ("2023-02", 5.3%Q)]).
Proof.
  split; [reflexivity|].
  destruct (update_plot_figure_projection [table_state_a] cpi_data
              table_state_a eq_refl)
    as [[tr [l [E [P _]]]] [tr' [l' [E' [P' _]]]]].
  split; [exists tr, l | exists tr', l']; (split; [assumption|]);
    [rewrite P | rewrite P']; reflexivity.
Defined.

(** ** The y-axis title *)

(** Whatever the layout held and whatever [yaxis_title] says, after one
    [update_layout] call the y-axis title is the [title] of the [yaxis]
    dictionary: both keywords assign [yaxis.title] and the dictionary
    comes later.  The title font, assigned to [yaxis.title.font], stays. *)
Lemma update_layout_yaxis_title (fig : Figure.t) (kw : LayoutArgs.t) :
  exists l,
    Figure.layout (Figure.update_layout fig kw) = Some l
    /\ Layout.title (Layout.yaxis l)
       = Layout.mkTitle (Some (YAxis.title (LayoutArgs.yaxis kw)))
           (Some (LayoutArgs.yaxis_title_font kw))
    /\ Layout.title (Layout.xaxis l)
       = Layout.mkTitle (Some (LayoutArgs.xaxis_title kw))
           (Some (LayoutArgs.xaxis_title_font kw)).
Proof. eexists. split; [reflexivity|]. split; reflexivity. Qed.

(** The y-axis title of the figure [update_plot_figure] builds, for every
    row sequence and indicator. *)
Lemma update_plot_figure_yaxis_title (rows : DataFrame) (plot_type : option string) :
  exists fig l,
    eval (update_plot_figure cpi_data plot_type) rows = Ok fig
    /\ Figure.layout fig = Some l
    /\ Layout.text (Layout.title (Layout.yaxis l))
       = Some (if Py.opt_eqb plot_type (Some "Index")
               then "<b>Index</b>" else "<b>Inflation</b>").
Proof.
  unfold eval, run, update_plot_figure.
  destruct (Py.opt_eqb plot_type (Some "Index")); cbn;
    do 2 eexists; (split; [reflexivity|]); split; reflexivity.
Qed.

(** C7 (the code at a failing input): for indicator Inflation the figure
    has the points of the rows, in order, and its y-axis title is
    "<b>Inflation</b>", not "Inflation (in %)": the [yaxis_title] keyword
    of line 366 is overwritten by the [yaxis] dictionary of line 372. *)
Theorem inflation_axis_title_overwritten :
  exists fig tr l,
    eval (update_plot 1 (Some "StateA") (Some "Combined") (Some "General")
            (Some "Inflation") (SelStr "Select All") (Some "2012"))
         table_state_a = Ok fig
    /\ Figure.data fig = [tr]
    /\ Figure.layout fig = Some l
    /\ points tr = [("2023-01", 5.0%Q); ("2023-02", 5.3%Q)]
    /\ Layout.text (Layout.title (Layout.yaxis l)) = Some "<b>Inflation</b>"
    /\ Layout.text (Layout.title (Layout.yaxis l)) <> Some "Inflation (in %)".
Proof.
  do 3 eexists. split; [reflexivity|]. split; [reflexivity|].
  split; [reflexivity|]. split; [reflexivity|]. split; [reflexivity|].
  discriminate.
Qed.

(** The layout of the Index figure, as the figure holds it: the angle 270
    of the x ticks is kept as -90. *)
Example index_figure_layout :
  exists fig,
    eval (update_plot_figure cpi_data (Some "Index")) table_state_a = Ok fig
    /\ Figure.layout fig
       = Some
           {| Layout.template := Some "plotly_white";
              Layout.title_font :=
                Some (Font.mk 25 "Arial, sans-serif" "black" "bold");
              Layout.title_x := Some 0.5%Q;
              Layout.font_color := Some "black";
              Layout.xaxis :=
                Layout.mkAxis
                  (Layout.mkTitle (Some "Year")
                     (Some (Font.mk 18 "Arial, sans-serif" "black" "bold")))
                  None None (Some true) (Some "lightgray") (Some (-90));
              Layout.yaxis :=
                Layout.mkAxis
                  (Layout.mkTitle (Some "<b>Index</b>")
                     (Some (Font.mk 18 "Arial, sans-serif" "black" "bold")))
                  (Some "left") (Some "black") (Some true) None None;
              Layout.margin_t := Some 0 |}.
Proof. eexists. split; reflexivity. Qed.

(** ** The gate of [update_plot] *)

Lemma default_gate (st sec g pt : option string) :
  PyOps.tuple4_eqb (st, sec, g, pt) get_default_dropdown_values = true
  <-> (st, sec, g, pt) = default_selection.
Proof.
  unfold PyOps.tuple4_eqb, get_default_dropdown_values, default_selection.
  rewrite !andb_true_iff, !opt_eqb_true. split.
  - intros [[[-> ->] ->] ->]. reflexivity.
  - intros E. injection E as -> -> -> ->. auto.
Qed.

Lemma gate_open (n : Z) (st sec g pt : option string) :
  (n >? 0) || PyOps.tuple4_eqb (st, sec, g, pt) get_default_dropdown_values
  = true
  <-> 0 < n \/ (st, sec, g, pt) = default_selection.
Proof. rewrite orb_true_iff, default_gate. rewrite Z.gtb_ltb, Z.ltb_lt. tauto. Qed.

Lemma update_plot_figure_populated rows plot_type :
  exists fig,
    eval (update_plot_figure cpi_data plot_type) rows = Ok fig
    /\ populated fig
    /\ forall tr, In tr (Figure.data fig) ->
         List.length (Scatter.x tr) = List.length rows
         /\ List.length (Scatter.y tr) = List.length rows.
Proof.
  unfold eval, run, update_plot_figure, populated.
  destruct (Py.opt_eqb plot_type (Some "Index")); cbn;
    eexists; (split; [reflexivity|]); cbn;
    (split; [split; [reflexivity | discriminate]|]);
    intros tr [<-|[]]; cbn; now rewrite !length_map.
Qed.

(** C10: the interactive render yields a populated figure exactly when the
    Apply button has been clicked or the (state, sector, group, indicator)
    selection is the built-in default; for any other selection with no
    click it returns the empty figure: no trace and no styling. *)
Theorem update_plot_gate
    (table : DataFrame) (n_clicks : Z) (st sec g pt : option string)
    (sel : YearSelection) (base : option string) :
  sel <> SelNone ->
  exists fig,
    eval (update_plot n_clicks st sec g pt sel base) table = Ok fig
    /\ (populated fig
        <-> 0 < n_clicks \/ (st, sec, g, pt) = default_selection)
    /\ (~ (0 < n_clicks \/ (st, sec, g, pt) = default_selection) ->
        fig = Figure.empty
        /\ Figure.data fig = [] /\ Figure.layout fig = None).
Proof.
  intros Hsel.
  destruct ((n_clicks >? 0)
            || PyOps.tuple4_eqb (st, sec, g, pt) get_default_dropdown_values)
    eqn:Hg.
  - destruct (resolve_years_ok sel table Hsel) as [ys Hys].
    destruct (update_plot_figure_populated
                (apply_rows table st sec g base ys) pt) as [fig [E [Hp _]]].
    exists fig. split.
    + now rewrite (update_plot_eval _ _ _ _ _ _ _ _ ys Hys Hg).
    + apply gate_open in Hg. split; [tauto|]. intros Hn. contradiction.
  - exists Figure.empty. split; [now apply update_plot_closed|].
    assert (Hn : ~ (0 < n_clicks \/ (st, sec, g, pt) = default_selection)).
    { intros H. apply gate_open in H. congruence. }
    split; [|auto].
    split; [|tauto]. intros [Hl _]. discriminate Hl.
Qed.

Lemma update_plot_gate_witness :
  SelStr "Select All" <> SelNone
  /\ exists fig,
       eval (update_plot 0 (Some "StateA") (Some "Combined") (Some "General")
               (Some "Index") (SelStr "Select All") (Some "2012"))
            table_state_a = Ok fig
       /\ (populated fig
           <-> 0 < 0 \/ (Some "StateA", Some "Combined", Some "General",
                         Some "Index") = default_selection)
       /\ (~ (0 < 0 \/ (Some "StateA", Some "Combined", Some "General",
                        Some "Index") = default_selection) ->
           fig = Figure.empty
           /\ Figure.data fig = [] /\ Figure.layout fig = None).
Proof.
  split; [discriminate|].
  apply (update_plot_gate table_state_a 0 (Some "StateA") (Some "Combined")
           (Some "General") (Some "Index") (SelStr "Select All")
           (Some "2012")).
  discriminate.
Defined.

(** ** No matching row *)

Lemma no_element_nil {A} (l : list A) : (forall a, ~ In a l) -> l = [].
Proof.
  destruct l as [|a l]; [reflexivity|]. intros H. destruct (H a). now left.
Qed.

(** C8: for every filter specification that no row of the table meets, the
    render path returns a figure, raising nothing, and the figure has no
    point: each of its traces has empty x and y. *)
Theorem update_plot_no_match_is_empty
    (table : DataFrame) (n_clicks : Z) (st sec g pt : option string)
    (sel : YearSelection) (base : option string) :
  sel <> SelNone ->
  (forall ys r,
     eval (resolve_years sel) table = Ok ys ->
     In r table -> ~ matches st sec g base ys r) ->
  exists fig,
    eval (update_plot n_clicks st sec g pt sel base) table = Ok fig
    /\ forall tr, In tr (Figure.data fig) ->
         points tr = [] /\ Scatter.x tr = [] /\ Scatter.y tr = [].
Proof.
  intros Hsel Hno.
  destruct ((n_clicks >? 0)
            || PyOps.tuple4_eqb (st, sec, g, pt) get_default_dropdown_values)
    eqn:Hg.
  - destruct (resolve_years_ok sel table Hsel) as [ys Hys].
    assert (Hrows : apply_rows table st sec g base ys = []).
    { apply no_element_nil. intros r Hr. apply apply_rows_In in Hr.
      destruct Hr as [Hr Hm]. exact (Hno ys r Hys Hr Hm). }
    destruct (update_plot_figure_populated
                (apply_rows table st sec g base ys) pt) as [fig [E [_ Hlen]]].
    exists fig. split.
    + now rewrite (update_plot_eval _ _ _ _ _ _ _ _ ys Hys Hg).
    + intros tr Htr. destruct (Hlen tr Htr) as [Hx Hy].
      rewrite Hrows in Hx, Hy. cbn in Hx, Hy.
      apply length_zero_iff_nil in Hx, Hy.
      unfold points. rewrite Hx, Hy. auto.
  - exists Figure.empty. split; [now apply update_plot_closed|].
    intros tr [].
Qed.

Lemma update_plot_no_match_is_empty_witness :
  SelStr "Select All" <> SelNone
  /\ (forall ys r,
        eval (resolve_years (SelStr "Select All")) table_state_a = Ok ys ->
        In r table_state_a ->
        ~ matches (Some "StateB") (Some "Combined") (Some "General")
            (Some "2012") ys r)
  /\ exists fig,
       eval (update_plot 1 (Some "StateB") (Some "Combined") (Some "General")
               (Some "Index") (SelStr "Select All") (Some "2012"))
            table_state_a = Ok fig
       /\ forall tr, In tr (Figure.data fig) ->
            points tr = [] /\ Scatter.x tr = [] /\ Scatter.y tr = [].
Proof.
  assert (Hno : forall ys r,
    eval (resolve_years (SelStr "Select All")) table_state_a = Ok ys ->
    In r table_state_a ->
    ~ matches (Some "StateB") (Some "Combined") (Some "General")
        (Some "2012") ys r).
  { intros ys r _ Hr [Hs _]. cbn in Hr.
    destruct Hr as [<-|[<-|[]]]; cbn in Hs; discriminate. }
  split; [discriminate|]. split; [exact Hno|].
  apply (update_plot_no_match_is_empty table_state_a 1 (Some "StateB")
           (Some "Combined") (Some "General") (Some "Index")
           (SelStr "Select All") (Some "2012")); [discriminate | exact Hno].
Defined.

(** ** Apply against Download *)

(** The two call sites pass the same trace style and the same layout. *)
Lemma download_figure_same_as_update_figure
    (rows : DataFrame) (plot_type : option string) :
  plot_type = Some "Index" \/ plot_type = Some "Inflation" ->
  eval (download_plot_figure cpi_data plot_type) rows
  = eval (update_plot_figure cpi_data plot_type) rows.
Proof. intros [-> | ->]; reflexivity. Qed.

(** When the year selection holds the sentinel, both paths keep the same
    rows in the same order. *)
Lemma download_rows_same_as_apply_rows_on_select_all table st sec g base :
  download_rows table st sec g base
  = apply_rows table st sec g base
      (map PInt (Pd.unique Z.eqb (map year table))).
Proof.
  unfold download_rows, apply_rows. do 3 f_equal.
  symmetry. apply forallb_filter_id. apply forallb_forall.
  intros r Hr. apply isin_In. apply all_years_spec. eauto.
Qed.

Lemma download_same_as_apply_on_select_all
    table n prop_id rest clicks st sec g pt sel base :
  PyOps.contains "Select All" sel = Ok true ->
  pt = Some "Index" \/ pt = Some "Inflation" ->
  0 < n ->
  PyOps.split_dot_head prop_id = "download-button" ->
  exists fig,
    eval (update_plot n st sec g pt sel base) table = Ok fig
    /\ eval (download_plot (prop_id :: rest) clicks st sec g pt sel base) table
       = Ok (Some (mkDownload fig "plot.svg")).
Proof.
  intros Hall Hpt Hn Hb.
  assert (Hys : eval (resolve_years sel) table
                = Ok (map PInt (Pd.unique Z.eqb (map year table)))).
  { now rewrite resolve_years_eval, Hall. }
  destruct (update_plot_figure_ok
              (apply_rows table st sec g base
                 (map PInt (Pd.unique Z.eqb (map year table)))) pt)
    as [fig E].
  exists fig. split.
  - rewrite (update_plot_eval _ _ _ _ _ _ _ _ _ Hys); [exact E|].
    apply gate_open. now left.
  - rewrite (download_plot_eval _ _ _ _ _ _ _ _ _ _ _ Hys Hb).
    rewrite download_rows_same_as_apply_rows_on_select_all.
    rewrite download_figure_same_as_update_figure by assumption.
    now rewrite E.
Qed.

(** C1 (the code at a failing input): with year 2023 alone selected on a
    table that also holds 2024, Apply draws the 2023 point while Download
    serialises a figure with the 2023 and the 2024 point; trace style and
    layout are the same in both. *)
Theorem download_ignores_year_selection :
  exists shown sent,
    eval (update_plot 1 (Some "StateA") (Some "Combined") (Some "General")
            (Some "Index") (SelList [PInt 2023]) (Some "2012"))
         table_two_years = Ok shown
    /\ eval (download_plot ["download-button.n_clicks"] 1 (Some "StateA")
               (Some "Combined") (Some "General") (Some "Index")
               (SelList [PInt 2023]) (Some "2012"))
            table_two_years = Ok (Some (mkDownload sent "plot.svg"))
    /\ map Scatter.x (Figure.data shown) = [["2023-01"]]
    /\ map Scatter.x (Figure.data sent) = [["2023-01"; "2024-01"]]
    /\ map trace_style (Figure.data shown) = map trace_style (Figure.data sent)
    /\ Figure.layout shown = Figure.layout sent
    /\ shown <> sent.
Proof.
  do 2 eexists. split; [reflexivity|]. split; [reflexivity|].
  repeat split; try reflexivity. discriminate.
Qed.

(** C2 (the code at a failing input): with year 2023 alone selected, the
    rows the Download path keeps include a row of 2024, a year outside the
    resolved year set. *)
Theorem download_rows_outside_year_set :
  exists ys rows r,
    eval (resolve_years (SelList [PInt 2023])) table_two_years = Ok ys
    /\ eval_df (download_plot_rows (Some "StateA") (Some "Combined")
                  (Some "General") (SelList [PInt 2023]) (Some "2012"))
               table_two_years = Ok rows
    /\ In r rows
    /\ ~ In (PInt (year r)) ys.
Proof.
  exists [PInt 2023], table_two_years, (normalise (row_of 2024 "January" 1
    "StateA" "Combined" "General" "2012" 5.3 151.0)).
  split; [reflexivity|]. split; [reflexivity|].
  split; [right; now left|].
  cbn. intros [E|[]]. discriminate E.
Qed.

(** ** The table is left as it was *)

Lemma preserves_ret {A} (a : A) : preserves_store (ret a).
Proof. intros h. exists []. cbn. now rewrite app_nil_r. Qed.

Lemma preserves_raise {A} (e : Exn) : preserves_store (@raise A e).
Proof. intros h. exists []. cbn. now rewrite app_nil_r. Qed.

Lemma preserves_lift {A} (r : result A) : preserves_store (lift r).
Proof. intros h. exists []. cbn. now rewrite app_nil_r. Qed.

Lemma preserves_read (r : Ref) : preserves_store (read r).
Proof.
  intros h. exists []. unfold read.
  destruct (nth_error h r); cbn; now rewrite app_nil_r.
Qed.

Lemma preserves_alloc (df : DataFrame) : preserves_store (alloc df).
Proof. intros h. now exists [df]. Qed.

Lemma preserves_bind {A B} (m : M A) (k : A -> M B) :
  preserves_store m -> (forall a, preserves_store (k a)) ->
  preserves_store (bind m k).
Proof.
  intros Hm Hk h. unfold bind. destruct (Hm h) as [f1 E1].
  destruct (m h) as [[a|e] h']; cbn in E1; subst h'.
  - destruct (Hk a (h ++ f1)%list) as [f2 E2].
    exists (f1 ++ f2)%list. now rewrite E2, app_assoc.
  - now exists f1.
Qed.

Lemma preserves_table {A} (m : M A) (table : DataFrame) :
  preserves_store m -> nth_error (store_after m table) cpi_data = Some table.
Proof.
  intros H. unfold store_after, run. destruct (H [table]) as [fresh E].
  now rewrite E.
Qed.

Create HintDb frame.

#[local] Hint Resolve preserves_ret preserves_raise preserves_lift
  preserves_read preserves_alloc : frame.

Ltac frame :=
  repeat first
    [ apply preserves_bind; [|intros ?]
    | solve [auto with frame]
    | match goal with
      | |- preserves_store (if ?b then _ else _) => destruct b
      | |- preserves_store (match ?x with _ => _ end) => destruct x
      end ].

Lemma preserves_df_copy r : preserves_store (Df.copy r).
Proof. unfold Df.copy. frame. Qed.

Lemma preserves_df_getitem_mask r mask :
  preserves_store (Df.getitem_mask r mask).
Proof. unfold Df.getitem_mask. frame. Qed.

Lemma preserves_df_sort_values r col : preserves_store (Df.sort_values r col).
Proof. unfold Df.sort_values. frame. Qed.

Lemma preserves_df_column {A} r (col : Row -> A) :
  preserves_store (Df.column r col).
Proof. unfold Df.column. frame. Qed.

Lemma preserves_df_unique {A} (eqb : A -> A -> bool) r (col : Row -> A) :
  preserves_store (Df.unique eqb r col).
Proof. unfold Df.unique. frame. Qed.

#[local] Hint Resolve preserves_df_copy preserves_df_getitem_mask
  preserves_df_sort_values preserves_df_column preserves_df_unique : frame.

Lemma preserves_resolve_years sel : preserves_store (resolve_years sel).
Proof. unfold resolve_years. frame. Qed.

#[local] Hint Resolve preserves_resolve_years : frame.

Lemma preserves_update_plot_rows st sec g sel base :
  preserves_store (update_plot_rows st sec g sel base).
Proof. unfold update_plot_rows. frame. Qed.

Lemma preserves_download_plot_rows st sec g sel base :
  preserves_store (download_plot_rows st sec g sel base).
Proof. unfold download_plot_rows. frame. Qed.

Lemma preserves_update_plot_figure r pt :
  preserves_store (update_plot_figure r pt).
Proof. unfold update_plot_figure. frame. Qed.

Lemma preserves_download_plot_figure r pt :
  preserves_store (download_plot_figure r pt).
Proof. unfold download_plot_figure. frame. Qed.

#[local] Hint Resolve preserves_update_plot_rows preserves_download_plot_rows
  preserves_update_plot_figure preserves_download_plot_figure : frame.

(** An assignment in place is not of that kind: it changes the table. *)
Remark setitem_changes_table :
  ~ preserves_store
      (Df.setitem cpi_data
         (fun r => normalise (row_of 2000 (month r) 1 (state r) (sector r)
                                (grp r) (base_year r) (inflation r) (index r)))).
Proof.
  intros H. destruct (H [table_state_a]) as [fresh E].
  vm_compute in E. discriminate E.
Qed.

(** C9: every callback (the three menu derivations, the Apply render with
    its row selection and projection, the Download export) leaves every
    object of the store as it found it, the loaded table among them: the
    store afterwards is the store before, followed by fresh objects. *)
Theorem callbacks_leave_table_unchanged :
  (forall b, preserves_store (update_year_dropdown b))
  /\ (forall s, preserves_store (update_sector_dropdown s))
  /\ (forall s, preserves_store (update_group_dropdown s))
  /\ (forall n st sec g pt sel base,
        preserves_store (update_plot n st sec g pt sel base))
  /\ (forall trig n st sec g pt sel base,
        preserves_store (download_plot trig n st sec g pt sel base))
  /\ (forall table b s s' n st sec g pt sel base trig,
        nth_error (store_after (update_year_dropdown b) table) cpi_data
        = Some table
        /\ nth_error (store_after (update_sector_dropdown s) table) cpi_data
           = Some table
        /\ nth_error (store_after (update_group_dropdown s') table) cpi_data
           = Some table
        /\ nth_error (store_after (update_plot n st sec g pt sel base) table)
             cpi_data = Some table
        /\ nth_error
             (store_after (download_plot trig n st sec g pt sel base) table)
             cpi_data = Some table).
Proof.
  assert (H1 : forall b, preserves_store (update_year_dropdown b)).
  { intros b. unfold update_year_dropdown. frame. }
  assert (H2 : forall s, preserves_store (update_sector_dropdown s)).
  { intros s. unfold update_sector_dropdown. frame. }
  assert (H3 : forall s, preserves_store (update_group_dropdown s)).
  { intros s. unfold update_group_dropdown. frame. }
  assert (H4 : forall n st sec g pt sel base,
             preserves_store (update_plot n st sec g pt sel base)).
  { intros. unfold update_plot. frame. }
  assert (H5 : forall trig n st sec g pt sel base,
             preserves_store (download_plot trig n st sec g pt sel base)).
  { intros. unfold download_plot. frame. }
  repeat split; auto using preserves_table.
Qed.

(** ** The text key and the integer key *)

Lemma all_from_spec f count start :
  all_from f count start = true ->
  forall y, start <= y < start + Z.of_nat count -> f y = true.
Proof.
  revert start. induction count as [|c IH]; intros start H y Hy.
  - lia.
  - simpl in H. apply andb_true_iff in H. destruct H as [H1 H2].
    destruct (Z.eq_dec y start) as [->|Hne]; [assumption|].
    apply (IH (start + 1) H2). lia.
Qed.

Lemma str_four_digits_check :
  all_from (fun n => String.eqb (Py.str n) (digits4 n)) (Z.to_nat 9000) 1000 = true.
Proof. vm_compute. reflexivity. Qed.

Lemma str_four_digits (y : Z) : 1000 <= y <= 9999 -> Py.str y = digits4 y.
Proof.
  intros H. apply String.eqb_eq.
  apply (all_from_spec _ _ _ str_four_digits_check). lia.
Qed.

Lemma month_two_digits (m : Z) :
  1 <= m <= 12 ->
  Py.zfill 2 (Py.str m) = digits2 m /\ int_of_text (digits2 m) = m.
Proof.
  intros H.
  assert (E : m = 1 \/ m = 2 \/ m = 3 \/ m = 4 \/ m = 5 \/ m = 6 \/ m = 7
              \/ m = 8 \/ m = 9 \/ m = 10 \/ m = 11 \/ m = 12) by lia.
  repeat (destruct E as [->|E]; [split; reflexivity|]).
  subst. split; reflexivity.
Qed.

Lemma digit_compare (a b : Z) :
  0 <= a <= 9 -> 0 <= b <= 9 ->
  Ascii.compare (digit a) (digit b) = Z.compare a b.
Proof.
  intros Ha Hb. unfold Ascii.compare, digit.
  rewrite !N_ascii_embedding by lia.
  rewrite (Z2N.inj_compare (48 + a) (48 + b)) by lia.
  apply Z.add_compare_mono_l.
Qed.

Lemma year_month2_normalise (r : RawRow) :
  well_dated r ->
  year_month2 (normalise r)
  = digits4 (raw_year r) ++ "-" ++ digits2 (raw_month_number r)
  /\ year_month_key (normalise r) = raw_year r * 100 + raw_month_number r.
Proof.
  intros [Hy Hm]. unfold year_month_key. cbn [normalise year_month2 year month_number].
  destruct (month_two_digits _ Hm) as [E1 E2].
  rewrite E1, E2, (str_four_digits _ Hy). split; reflexivity.
Qed.

Lemma digits_of_year (y : Z) :
  1000 <= y <= 9999 ->
  exists a b c d,
    0 <= a <= 9 /\ 0 <= b <= 9 /\ 0 <= c <= 9 /\ 0 <= d <= 9
    /\ y = 1000 * a + 100 * b + 10 * c + d
    /\ digits4 y = String (digit a) (String (digit b) (String (digit c) (String (digit d) ""))).
Proof.
  intros H. exists (y / 1000), (y / 100 mod 10), (y / 10 mod 10), (y mod 10).
  repeat split; try reflexivity; Z.div_mod_to_equations; lia.
Qed.

Lemma digits_of_month (m : Z) :
  1 <= m <= 12 ->
  exists a b,
    0 <= a <= 9 /\ 0 <= b <= 9 /\ m = 10 * a + b
    /\ digits2 m = String (digit a) (String (digit b) "").
Proof.
  intros H. exists (m / 10), (m mod 10).
  repeat split; try reflexivity; Z.div_mod_to_equations; lia.
Qed.

Lemma leb_cons (c c' : ascii) (s s' : string) :
  String.leb (String c s) (String c' s')
  = match Ascii.compare c c' with
    | Eq => String.leb s s'
    | Lt => true
    | Gt => false
    end.
Proof. unfold String.leb. simpl. destruct (Ascii.compare c c'); reflexivity. Qed.

Lemma key_order (a b : RawRow) :
  well_dated a -> well_dated b ->
  String.leb (year_month2 (normalise a)) (year_month2 (normalise b))
  = (year_month_key (normalise a) <=? year_month_key (normalise b)).
Proof.
  intros Ha Hb.
  destruct (year_month2_normalise a Ha) as [-> ->].
  destruct (year_month2_normalise b Hb) as [-> ->].
  destruct Ha as [Hya Hma], Hb as [Hyb Hmb].
  destruct (digits_of_year _ Hya) as (a3 & a2 & a1 & a0 & ? & ? & ? & ? & Ea & ->).
  destruct (digits_of_year _ Hyb) as (b3 & b2 & b1 & b0 & ? & ? & ? & ? & Eb & ->).
  destruct (digits_of_month _ Hma) as (p1 & p0 & ? & ? & Ep & ->).
  destruct (digits_of_month _ Hmb) as (q1 & q0 & ? & ? & Eq' & ->).
  cbn [String.append].
  rewrite !leb_cons, !digit_compare by assumption.
  change (Ascii.compare "-" "-") with Eq. cbn match.
  change (String.leb "" "") with true.
  symmetry.
  destruct (Z.compare_spec a3 b3); [|apply Z.leb_le; lia|apply Z.leb_gt; lia].
  destruct (Z.compare_spec a2 b2); [|apply Z.leb_le; lia|apply Z.leb_gt; lia].
  destruct (Z.compare_spec a1 b1); [|apply Z.leb_le; lia|apply Z.leb_gt; lia].
  destruct (Z.compare_spec a0 b0); [|apply Z.leb_le; lia|apply Z.leb_gt; lia].
  destruct (Z.compare_spec p1 q1); [|apply Z.leb_le; lia|apply Z.leb_gt; lia].
  destruct (Z.compare_spec p0 q0); [|apply Z.leb_le; lia|apply Z.leb_gt; lia].
  apply Z.leb_le; lia.
Qed.


Lemma load_In (raw_data : list RawRow) (r : Row) :
  In r (load raw_data) <-> exists raw, In raw raw_data /\ r = normalise raw.
Proof.
  unfold load, Pd.sort_values. rewrite sort_by_In, in_map_iff.
  split; intros [raw [H1 H2]]; exists raw; auto.
Qed.

Lemma sorted_by_text_sorted_by_key (l : list Row) :
  (forall r, In r l -> exists raw, well_dated raw /\ r = normalise raw) ->
  Sorted (Pd.key_le String.leb year_month2) l ->
  StronglySorted (fun a b => year_month_key a <= year_month_key b) l.
Proof.
  intros Hl Hs. apply Sorted_StronglySorted.
  - intros a b c Hab Hbc. lia.
  - induction Hs as [|a l Hs IH Hh]; constructor.
    + apply IH. intros r Hr. apply Hl. now right.
    + destruct Hh as [|b l Hab]; constructor.
      destruct (Hl a (or_introl eq_refl)) as [ra [Ha ->]].
      destruct (Hl b (or_intror (or_introl eq_refl))) as [rb [Hb ->]].
      unfold Pd.key_le in Hab. rewrite key_order in Hab by assumption.
      now apply Z.leb_le.
Qed.

Lemma string_leb_total (s t : string) :
  String.leb s t = true \/ String.leb t s = true.
Proof. apply String.leb_total. Qed.

Lemma apply_rows_sorted table st sec g base ys :
  (forall r, In r table -> exists raw, well_dated raw /\ r = normalise raw) ->
  StronglySorted (fun a b => year_month_key a <= year_month_key b)
    (apply_rows table st sec g base ys).
Proof.
  intros H. apply sorted_by_text_sorted_by_key.
  - intros r Hr. apply apply_rows_In in Hr. destruct Hr as [Hr _]. auto.
  - apply sort_by_sorted, string_leb_total.
Qed.

Lemma download_rows_sorted table st sec g base :
  (forall r, In r table -> exists raw, well_dated raw /\ r = normalise raw) ->
  StronglySorted (fun a b => year_month_key a <= year_month_key b)
    (download_rows table st sec g base).
Proof.
  intros H. apply sorted_by_text_sorted_by_key.
  - intros r Hr. apply download_rows_In in Hr. destruct Hr as [Hr _]. auto.
  - apply sort_by_sorted, string_leb_total.
Qed.

(** C4: on every table of normalised rows whose years have four digits and
    whose months are 1 to 12, in whatever order the table holds them, the
    rows the selection step produces, on the Apply path and on the
    Download path, are in non-decreasing order of the integer key
    [year * 100 + month_number]: on such rows the ascending order of the
    text key "{year}-{month_number:02d}" the code sorts by is the order of
    the integer key. *)
Theorem selected_rows_sorted_by_key
    (table : DataFrame) (st sec g : option string)
    (sel : YearSelection) (base : option string) :
  (forall r, In r table -> exists raw, well_dated raw /\ r = normalise raw) ->
  sel <> SelNone ->
  (forall a b,
     In a table -> In b table ->
     String.leb (year_month2 a) (year_month2 b)
     = (year_month_key a <=? year_month_key b))
  /\ (forall raw, well_dated raw ->
        year_month_key (normalise raw)
        = raw_year raw * 100 + raw_month_number raw)
  /\ (exists rows,
        eval_df (update_plot_rows st sec g sel base) table = Ok rows
        /\ StronglySorted
             (fun a b => year_month_key a <= year_month_key b) rows)
  /\ (exists rows,
        eval_df (download_plot_rows st sec g sel base) table = Ok rows
        /\ StronglySorted
             (fun a b => year_month_key a <= year_month_key b) rows).
Proof.
  intros Htable Hsel.
  destruct (resolve_years_ok sel table Hsel) as [ys Hys].
  split; [|split; [|split]].
  - intros a b Ha Hb.
    destruct (Htable a Ha) as [ra [Hra ->]].
    destruct (Htable b Hb) as [rb [Hrb ->]].
    apply key_order; auto.
  - intros raw Hraw. now apply year_month2_normalise.
  - exists (apply_rows table st sec g base ys). split.
    + now apply update_plot_rows_eval.
    + now apply apply_rows_sorted.
  - exists (download_rows table st sec g base). split.
    + now apply (download_plot_rows_eval _ _ _ _ _ _ ys).
    + now apply download_rows_sorted.
Qed.

Lemma raw_two_years_well_dated : forall r, In r raw_two_years -> well_dated r.
Proof.
  intros r [<-|[<-|[]]]; unfold well_dated; cbn; lia.
Qed.

Lemma table_out_of_order_well_dated :
  forall r, In r table_out_of_order ->
            exists raw, well_dated raw /\ r = normalise raw.
Proof.
  intros r [<-|[<-|[]]]; eexists; (split; [|reflexivity]);
    unfold well_dated; cbn; lia.
Qed.

Lemma selected_rows_sorted_by_key_witness :
  (forall r, In r table_out_of_order ->
             exists raw, well_dated raw /\ r = normalise raw)
  /\ SelStr "Select All" <> SelNone
  /\ map year_month2 table_out_of_order = ["2024-01"; "2023-01"]
  /\ (exists rows,
        eval_df (update_plot_rows (Some "StateA") (Some "Combined")
                   (Some "General") (SelStr "Select All") (Some "2012"))
                table_out_of_order = Ok rows
        /\ StronglySorted
             (fun a b => year_month_key a <= year_month_key b) rows)
  /\ (exists rows,
        eval_df (download_plot_rows (Some "StateA") (Some "Combined")
                   (Some "General") (SelStr "Select All") (Some "2012"))
                table_out_of_order = Ok rows
        /\ StronglySorted
             (fun a b => year_month_key a <= year_month_key b) rows).
Proof.
  split; [exact table_out_of_order_well_dated|]. split; [discriminate|].
  split; [reflexivity|].
  apply (selected_rows_sorted_by_key table_out_of_order (Some "StateA")
           (Some "Combined") (Some "General") (SelStr "Select All")
           (Some "2012") table_out_of_order_well_dated).
  discriminate.
Defined.

(** On the table that holds 2024 before 2023 both selections return 2023
    first: the order is made by the sort of lines 328 and 411, not found
    in the table. *)
Remark selection_sorts_table_out_of_order :
  ~ StronglySorted (fun a b => year_month_key a <= year_month_key b)
      table_out_of_order
  /\ (exists rows,
        eval_df (update_plot_rows (Some "StateA") (Some "Combined")
                   (Some "General") (SelStr "Select All") (Some "2012"))
                table_out_of_order = Ok rows
        /\ map year_month2 rows = ["2023-01"; "2024-01"])
  /\ (exists rows,
        eval_df (download_plot_rows (Some "StateA") (Some "Combined")
                   (Some "General") (SelStr "Select All") (Some "2012"))
                table_out_of_order = Ok rows
        /\ map year_month2 rows = ["2023-01"; "2024-01"]).
Proof.
  split.
  - intros H. inversion H as [|a l _ Hall]; subst.
    inversion Hall as [|b l' Hab _]; subst.
    vm_compute in Hab. apply Hab. reflexivity.
  - split; eexists; split; reflexivity.
Qed.

(** A year of three digits sorts after one of four: the text order is the
    integer order only among years of equal width. *)
Remark three_digit_year_sorts_last :
  let early := normalise (row_of 999 "December" 12 "StateA" "Combined"
                            "General" "2012" 1.0 1.0) in
  let late := normalise (row_of 1000 "January" 1 "StateA" "Combined"
                           "General" "2012" 1.0 1.0) in
  map year_month2 (Pd.sort_values year_month2 [early; late])
  = ["1000-01"; "9991-2"].
Proof. reflexivity. Qed.

(** ** The examples of the specification *)

Example apply_index_on_state_a :
  exists fig,
    eval (update_plot 1 (Some "StateA") (Some "Combined") (Some "General")
            (Some "Index") (SelStr "Select All") (Some "2012")) table_state_a
    = Ok fig
    /\ map points (Figure.data fig)
       = [[("2023-01", 150.0%Q); ("2023-02", 151.0%Q)]].
Proof. eexists. split; reflexivity. Qed.

Example apply_inflation_on_state_a :
  exists fig,
    eval (update_plot 1 (Some "StateA") (Some "Combined") (Some "General")
            (Some "Inflation") (SelStr "Select All") (Some "2012"))
         table_state_a
    = Ok fig
    /\ map points (Figure.data fig)
       = [[("2023-01", 5.0%Q); ("2023-02", 5.3%Q)]].
Proof. eexists. split; reflexivity. Qed.

Example apply_on_absent_state :
  exists fig,
    eval (update_plot 1 (Some "StateB") (Some "Combined") (Some "General")
            (Some "Index") (SelStr "Select All") (Some "2012")) table_state_a
    = Ok fig
    /\ map points (Figure.data fig) = [[]].
Proof. eexists. split; reflexivity. Qed.

Example load_orders_by_year_month :
  map year_month2
    (load [ row_of 2023 "February" 2 "StateA" "Combined" "General" "2012" 5.3 151.0;
            row_of 2023 "January" 1 "StateA" "Combined" "General" "2012" 5.0 150.0 ])
  = ["2023-01"; "2023-02"].
Proof. reflexivity. Qed.

(** * Further properties of the callbacks and of the module level *)

(** ** The year menu *)

Lemma sorted_strictly (l : list Z) :
  NoDup l -> StronglySorted Z.lt (Pd.sorted l).
Proof.
  intros Hnd.
  assert (Hs : StronglySorted Z.le (Pd.sorted l)).
  { apply Sorted_StronglySorted; [intros a b c; lia|].
    assert (H : Sorted (Pd.key_le Z.leb (fun x => x)) (Pd.sorted l)).
    { apply sort_by_sorted. intros x y.
      destruct (Z.leb_spec x y); [now left|right; apply Z.leb_le; lia]. }
    induction H as [|a m Hm IH Hh]; constructor; [assumption|].
    destruct Hh as [|b m Hab]; constructor.
    now apply Z.leb_le. }
  assert (Hn : NoDup (Pd.sorted l)).
  { eapply Permutation_NoDup; [|exact Hnd].
    apply Permutation_sym, sort_by_perm. }
  induction Hs as [|a m Hm IH Hall]; constructor.
  - apply IH. now inversion Hn.
  - inversion Hn as [|? ? Hnotin _]; subst.
    rewrite Forall_forall in *. intros b Hb.
    specialize (Hall b Hb).
    assert (a <> b) by (intros ->; contradiction). lia.
Qed.

Lemma sorted_In (l : list Z) (y : Z) : In y (Pd.sorted l) <-> In y l.
Proof. apply sort_by_In. Qed.

Lemma update_year_dropdown_years
    (table : DataFrame) (selected_base_year : option string) :
  exists years,
    eval (update_year_dropdown selected_base_year) table
    = Ok (select_all_option
          :: map (fun y => mkOption (PInt y) (PInt y)) years)
    /\ StronglySorted Z.lt years
    /\ forall y,
         In y years
         <-> exists r,
               In r table /\ year r = y
               /\ (PyOps.truthy selected_base_year = true ->
                   Some (base_year r) = selected_base_year).
Proof.
  destruct (PyOps.truthy selected_base_year) eqn:T.
  - exists (Pd.sorted
              (Pd.unique Z.eqb
                 (map year
                    (filter (fun r => Py.eq_opt (base_year r) selected_base_year)
                       table)))).
    split; [unfold eval, run, update_year_dropdown; rewrite T; reflexivity|].
    split; [apply sorted_strictly, unique_NoDup, Z.eqb_eq|].
    intros y. rewrite sorted_In, (unique_In Z.eqb Z.eqb_eq), in_map_iff.
    split.
    + intros [r [<- Hr]]. apply filter_In in Hr. destruct Hr as [Hr He].
      apply eq_opt_true in He. exists r. auto.
    + intros [r [Hr [<- Hb]]]. exists r. split; [reflexivity|].
      apply filter_In. split; [assumption|]. apply eq_opt_true. auto.
  - exists (Pd.sorted (Pd.unique Z.eqb (map year table))).
    split; [unfold eval, run, update_year_dropdown; rewrite T; reflexivity|].
    split; [apply sorted_strictly, unique_NoDup, Z.eqb_eq|].
    intros y. rewrite sorted_In, (unique_In Z.eqb Z.eqb_eq), in_map_iff.
    split.
    + intros [r [<- Hr]]. exists r. repeat split; auto. discriminate.
    + intros [r [Hr [<- _]]]. eauto.
Qed.

(** X1: the year menu always starts with "Select All"; the years after it
    are in strictly ascending order (so each once) and are exactly the
    years of the rows with the selected base year, or, when the base year
    is unset or empty, the years of the whole table. *)
Theorem update_year_dropdown_options
    (table : DataFrame) (selected_base_year : option string) :
  exists years,
    eval (update_year_dropdown selected_base_year) table
    = Ok (select_all_option
          :: map (fun y => mkOption (PInt y) (PInt y)) years)
    /\ StronglySorted Z.lt years
    /\ forall y,
         In y years
         <-> exists r,
               In r table /\ year r = y
               /\ (PyOps.truthy selected_base_year = true ->
                   Some (base_year r) = selected_base_year).
Proof. apply update_year_dropdown_years. Qed.

(** X2: the year options of the first layout are those the year callback
    gives for an unset base year, up to order: the layout lists the years
    as they first appear, the callback in ascending order. *)
Theorem initial_year_options_same_as_unset_base (table : DataFrame) :
  exists opts,
    eval (update_year_dropdown None) table = Ok opts
    /\ Permutation (initial_year_options table) opts.
Proof.
  eexists. split; [reflexivity|].
  unfold initial_year_options. apply perm_skip, Permutation_map.
  apply Permutation_sym, sort_by_perm.
Qed.

(** ** The group menu *)

Lemma update_group_dropdown_eval table selected_sector :
  eval (update_group_dropdown selected_sector) table
  = Ok (map (fun g => mkOption g g)
          (Pd.unique String.eqb
             (map grp
                (match selected_sector with
                 | Some _ =>
                     filter (fun r => Py.eq_opt (sector r) selected_sector)
                       table
                 | None => table
                 end)))).
Proof. destruct selected_sector; reflexivity. Qed.

(** X3: the group menu offers, each once, exactly the groups of the rows
    with the selected sector, whatever their state; for an unset sector
    it offers the groups of the whole table. *)
Theorem update_group_dropdown_groups
    (table : DataFrame) (selected_sector : option string) :
  exists opts,
    eval (update_group_dropdown selected_sector) table = Ok opts
    /\ NoDup opts
    /\ forall o,
         In o opts
         <-> exists r,
               In r table
               /\ (forall s, selected_sector = Some s -> sector r = s)
               /\ o = mkOption (grp r) (grp r).
Proof.
  eexists. split; [apply update_group_dropdown_eval|]. split.
  - apply Finite.Injective_map_NoDup.
    + intros a b E. now injection E.
    + apply unique_NoDup, String.eqb_eq.
  - intros o. rewrite in_map_iff. split.
    + intros [g0 [<- Hg]]. rewrite (unique_In String.eqb String.eqb_eq) in Hg.
      apply in_map_iff in Hg. destruct Hg as [r [<- Hr]].
      destruct selected_sector as [s|].
      * apply filter_In in Hr. destruct Hr as [Hr He].
        apply eq_opt_true in He. exists r. repeat split; auto.
        intros s' E. congruence.
      * exists r. repeat split; auto. discriminate.
    + intros [r [Hr [Hs ->]]]. exists (grp r). split; [reflexivity|].
      rewrite (unique_In String.eqb String.eqb_eq). apply in_map.
      destruct selected_sector as [s|]; [|assumption].
      apply filter_In. split; [assumption|]. apply eq_opt_true.
      now rewrite (Hs s eq_refl).
Qed.

(** X4: the groups offered for any sector are among those offered for an
    unset sector, and every group of the table is offered for an unset
    sector. *)
Theorem group_options_within_whole_table
    (table : DataFrame) (selected_sector : option string) :
  exists of_sector of_all,
    eval (update_group_dropdown selected_sector) table = Ok of_sector
    /\ eval (update_group_dropdown None) table = Ok of_all
    /\ incl of_sector of_all
    /\ forall r, In r table -> In (mkOption (grp r) (grp r)) of_all.
Proof.
  do 2 eexists. split; [apply update_group_dropdown_eval|].
  split; [apply update_group_dropdown_eval|].
  assert (Hall : forall r, In r table ->
            In (mkOption (grp r) (grp r))
               (map (fun g => mkOption g g)
                  (Pd.unique String.eqb (map grp table)))).
  { intros r Hr. apply in_map_iff. exists (grp r). split; [reflexivity|].
    rewrite (unique_In String.eqb String.eqb_eq). now apply in_map. }
  split; [|exact Hall].
  intros o Ho. apply in_map_iff in Ho. destruct Ho as [g0 [<- Hg]].
  rewrite (unique_In String.eqb String.eqb_eq) in Hg.
  apply in_map_iff in Hg. destruct Hg as [r [<- Hr]].
  apply Hall. destruct selected_sector; [|assumption].
  apply filter_In in Hr. tauto.
Qed.

(** ** The menus of the first layout and the menus that depend on them *)

Lemma np_unique_In (xs : list string) (x : string) :
  In x (Np.unique xs) <-> In x xs.
Proof.
  unfold Np.unique. now rewrite sort_by_In, (unique_In String.eqb String.eqb_eq).
Qed.

Lemma np_unique_NoDup (xs : list string) : NoDup (Np.unique xs).
Proof.
  unfold Np.unique. eapply Permutation_NoDup.
  - apply Permutation_sym, sort_by_perm.
  - apply unique_NoDup, String.eqb_eq.
Qed.

Lemma np_unique_sorted (xs : list string) :
  Sorted (fun a b => String.leb a b = true) (Np.unique xs).
Proof.
  unfold Np.unique.
  apply (sort_by_sorted String.leb (fun x : string => x) String.leb_total).
Qed.

(** X5: the state menu of the layout offers every state of the table
    once, in ascending text order, with label equal to value. *)
Theorem state_options_sorted_distinct (table : DataFrame) :
  NoDup (state_options table)
  /\ Sorted (fun a b => String.leb a b = true)
       (map value (state_options table))
  /\ (forall o, In o (state_options table) -> label o = value o)
  /\ forall s, In s (map value (state_options table))
               <-> exists r, In r table /\ state r = s.
Proof.
  unfold state_options.
  assert (E : map value
                (map (fun s => mkOption s s) (Np.unique (map state table)))
              = Np.unique (map state table)).
  { rewrite map_map. cbn. apply map_id. }
  split; [|split; [|split]].
  - apply Finite.Injective_map_NoDup; [|apply np_unique_NoDup].
    intros a b H. now injection H.
  - rewrite E. apply np_unique_sorted.
  - intros o Ho. apply in_map_iff in Ho. destruct Ho as [s [<- _]]. reflexivity.
  - intros s. rewrite E, np_unique_In, in_map_iff. split.
    + intros [r [<- Hr]]. eauto.
    + intros [r [Hr <-]]. eauto.
Qed.

(** X6: for a state the state menu offers, the sector menu is not
    empty. *)
Theorem offered_state_has_sectors
    (table : DataFrame) (o : DropdownOption string) :
  In o (state_options table) ->
  exists opts,
    eval (update_sector_dropdown (Some (value o))) table = Ok opts
    /\ opts <> [].
Proof.
  intros Ho. unfold state_options in Ho. apply in_map_iff in Ho.
  destruct Ho as [s [<- Hs]]. apply np_unique_In, in_map_iff in Hs.
  destruct Hs as [r [<- Hr]]. cbn [value].
  eexists. split; [apply update_sector_dropdown_eval|].
  intros E.
  assert (Hin : In (mkOption (sector r) (sector r))
            (map (fun s => mkOption s s)
               (Pd.unique String.eqb
                  (map sector
                     (filter (fun r0 => Py.eq_opt (state r0) (Some (state r)))
                        table))))).
  { apply in_map_iff. exists (sector r). split; [reflexivity|].
    rewrite (unique_In String.eqb String.eqb_eq). apply in_map.
    apply filter_In. split; [assumption|]. now apply eq_opt_true. }
  rewrite E in Hin. destruct Hin.
Qed.

Lemma offered_state_has_sectors_witness :
  In (mkOption "StateA" "StateA") (state_options table_state_a)
  /\ exists opts,
       eval (update_sector_dropdown (Some "StateA")) table_state_a = Ok opts
       /\ opts <> [].
Proof.
  assert (H : In (mkOption "StateA" "StateA") (state_options table_state_a))
    by (left; reflexivity).
  split; [exact H|].
  apply (offered_state_has_sectors table_state_a
           (mkOption "StateA" "StateA") H).
Defined.

(** X7: for a sector the sector menu offers for the selected state, the
    group menu holds a group that occurs in the table together with that
    state and that sector. *)
Theorem offered_sector_has_groups
    (table : DataFrame) (selected_state : option string)
    (sectors : list (DropdownOption string)) (o : DropdownOption string) :
  eval (update_sector_dropdown selected_state) table = Ok sectors ->
  In o sectors ->
  exists groups g r,
    eval (update_group_dropdown (Some (value o))) table = Ok groups
    /\ In g groups
    /\ In r table
    /\ Some (state r) = selected_state
    /\ sector r = value o /\ grp r = value g.
Proof.
  intros E Ho. rewrite update_sector_dropdown_eval in E. injection E as <-.
  apply in_map_iff in Ho. destruct Ho as [s [<- Hs]].
  rewrite (unique_In String.eqb String.eqb_eq) in Hs.
  apply in_map_iff in Hs. destruct Hs as [r [<- Hr]].
  apply filter_In in Hr. destruct Hr as [Hr He]. apply eq_opt_true in He.
  cbn [value].
  eexists. exists (mkOption (grp r) (grp r)), r.
  split; [apply update_group_dropdown_eval|].
  repeat split; auto.
  apply in_map_iff. exists (grp r). split; [reflexivity|].
  rewrite (unique_In String.eqb String.eqb_eq). apply in_map.
  apply filter_In. split; [assumption|]. now apply eq_opt_true.
Qed.

Lemma offered_sector_has_groups_witness :
  eval (update_sector_dropdown (Some "StateA")) table_state_a
  = Ok [mkOption "Combined" "Combined"]
  /\ In (mkOption "Combined" "Combined") [mkOption "Combined" "Combined"]
  /\ exists groups g r,
       eval (update_group_dropdown (Some "Combined")) table_state_a = Ok groups
       /\ In g groups
       /\ In r table_state_a
       /\ Some (state r) = Some "StateA"
       /\ sector r = "Combined" /\ grp r = value g.
Proof.
  assert (H : In (mkOption "Combined" "Combined")
                [mkOption "Combined" "Combined"]) by (left; reflexivity).
  split; [reflexivity|]. split; [exact H|].
  apply (offered_sector_has_groups table_state_a (Some "StateA")
           [mkOption "Combined" "Combined"] (mkOption "Combined" "Combined")
           eq_refl H).
Defined.

(** X8: for a base year the base-year menu offers, the year menu holds,
    after "Select All", at least one year of the table. *)
Theorem offered_base_year_has_years
    (table : DataFrame) (o : DropdownOption string) :
  In o (base_year_options table) ->
  exists y rest,
    eval (update_year_dropdown (Some (value o))) table
    = Ok (select_all_option :: mkOption (PInt y) (PInt y) :: rest)
    /\ exists r, In r table /\ year r = y.
Proof.
  intros Ho. unfold base_year_options in Ho. apply in_map_iff in Ho.
  destruct Ho as [b [<- Hb]]. apply np_unique_In, in_map_iff in Hb.
  destruct Hb as [r [<- Hr]]. cbn [value].
  destruct (update_year_dropdown_years table (Some (base_year r)))
    as [years [E [_ Hin]]].
  destruct years as [|y years].
  - exfalso. apply (Hin (year r)). exists r. auto.
  - exists y. eexists. split; [exact E|].
    destruct (proj1 (Hin y) (or_introl eq_refl)) as [r' [Hr' [Hy _]]]. eauto.
Qed.

Lemma offered_base_year_has_years_witness :
  In (mkOption "2012" "2012") (base_year_options table_two_bases)
  /\ exists y rest,
       eval (update_year_dropdown (Some "2012")) table_two_bases
       = Ok (select_all_option :: mkOption (PInt y) (PInt y) :: rest)
       /\ exists r, In r table_two_bases /\ year r = y.
Proof.
  assert (H : In (mkOption "2012" "2012") (base_year_options table_two_bases))
    by (right; left; reflexivity).
  split; [exact H|].
  apply (offered_base_year_has_years table_two_bases
           (mkOption "2012" "2012") H).
Defined.

(** ** Module level: what [load] makes of the rows *)

Lemma year_month_normalise (r : RawRow) :
  well_dated r ->
  year_month (normalise r)
  = digits4 (raw_year r) ++ digits2 (raw_month_number r).
Proof.
  intros [Hy Hm]. cbn [normalise year_month].
  destruct (month_two_digits _ Hm) as [E1 _].
  now rewrite E1, (str_four_digits _ Hy).
Qed.

Lemma year_month_order (a b : RawRow) :
  well_dated a -> well_dated b ->
  String.leb (year_month (normalise a)) (year_month (normalise b))
  = (year_month_key (normalise a) <=? year_month_key (normalise b)).
Proof.
  intros Ha Hb.
  rewrite (year_month_normalise a Ha), (year_month_normalise b Hb).
  destruct (year_month2_normalise a Ha) as [_ ->].
  destruct (year_month2_normalise b Hb) as [_ ->].
  destruct Ha as [Hya Hma], Hb as [Hyb Hmb].
  destruct (digits_of_year _ Hya)
    as (a3 & a2 & a1 & a0 & ? & ? & ? & ? & Ea & ->).
  destruct (digits_of_year _ Hyb)
    as (b3 & b2 & b1 & b0 & ? & ? & ? & ? & Eb & ->).
  destruct (digits_of_month _ Hma) as (p1 & p0 & ? & ? & Ep & ->).
  destruct (digits_of_month _ Hmb) as (q1 & q0 & ? & ? & Eq' & ->).
  cbn [String.append].
  rewrite !leb_cons, !digit_compare by assumption.
  change (String.leb "" "") with true.
  symmetry.
  destruct (Z.compare_spec a3 b3); [|apply Z.leb_le; lia|apply Z.leb_gt; lia].
  destruct (Z.compare_spec a2 b2); [|apply Z.leb_le; lia|apply Z.leb_gt; lia].
  destruct (Z.compare_spec a1 b1); [|apply Z.leb_le; lia|apply Z.leb_gt; lia].
  destruct (Z.compare_spec a0 b0); [|apply Z.leb_le; lia|apply Z.leb_gt; lia].
  destruct (Z.compare_spec p1 q1); [|apply Z.leb_le; lia|apply Z.leb_gt; lia].
  destruct (Z.compare_spec p0 q0); [|apply Z.leb_le; lia|apply Z.leb_gt; lia].
  apply Z.leb_le; lia.
Qed.

(** X9: the module-level normalisation keeps every row, none twice, and
    on rows with four-digit years and months 1 to 12 leaves the table in
    non-decreasing order of [year * 100 + month_number]. *)
Theorem load_keeps_rows_in_date_order (raw_data : list RawRow) :
  (forall r, In r raw_data -> well_dated r) ->
  Permutation (load raw_data) (map normalise raw_data)
  /\ List.length (load raw_data) = List.length raw_data
  /\ StronglySorted (fun a b => year_month_key a <= year_month_key b)
       (load raw_data).
Proof.
  intros H. split; [apply sort_by_perm|].
  split; [unfold load, Pd.sort_values; now rewrite sort_by_length, length_map|].
  apply Sorted_StronglySorted; [intros a b c; lia|].
  assert (Hs : Sorted (Pd.key_le String.leb year_month) (load raw_data)).
  { apply sort_by_sorted, String.leb_total. }
  assert (Hl : forall r, In r (load raw_data) ->
                 exists raw, well_dated raw /\ r = normalise raw).
  { intros r Hr. apply load_In in Hr. destruct Hr as [raw [Hraw ->]]. eauto. }
  induction Hs as [|a l Hs IH Hh]; constructor.
  - apply IH. intros r Hr. apply Hl. now right.
  - destruct Hh as [|b l Hab]; constructor.
    destruct (Hl a (or_introl eq_refl)) as [ra [Ha ->]].
    destruct (Hl b (or_intror (or_introl eq_refl))) as [rb [Hb ->]].
    unfold Pd.key_le in Hab. rewrite year_month_order in Hab by assumption.
    now apply Z.leb_le.
Qed.

Lemma load_keeps_rows_in_date_order_witness :
  (forall r, In r raw_two_years -> well_dated r)
  /\ Permutation (load raw_two_years) (map normalise raw_two_years)
  /\ List.length (load raw_two_years) = List.length raw_two_years
  /\ StronglySorted (fun a b => year_month_key a <= year_month_key b)
       (load raw_two_years).
Proof.
  split; [exact raw_two_years_well_dated|].
  apply (load_keeps_rows_in_date_order raw_two_years raw_two_years_well_dated).
Defined.

(** X10: for a four-digit year and a month 1 to 12, the normalised month
    number has two digits, [year_month2] is the year, a dash and the
    two-digit month, and [xaxislabel], built from the query's
    [concat(year, month)], is the year, a dash and the first three letters
    of the month name. *)
Theorem normalise_labels (r : RawRow) :
  well_dated r ->
  raw_xaxislabel r = Py.str (raw_year r) ++ raw_month r ->
  month_number (normalise r) = digits2 (raw_month_number r)
  /\ year_month2 (normalise r)
     = Py.str (raw_year r) ++ "-" ++ digits2 (raw_month_number r)
  /\ xaxislabel (normalise r)
     = Py.str (raw_year r) ++ "-" ++ Py.slice_to 3 (raw_month r).
Proof.
  intros [Hy Hm] Hx. cbn [normalise month_number year_month2 xaxislabel].
  destruct (month_two_digits _ Hm) as [E1 _].
  rewrite Hx, E1, (str_four_digits _ Hy).
  repeat split. destruct (raw_month r) as [|c1 [|c2 [|c3 m]]]; reflexivity.
Qed.

Lemma normalise_labels_witness :
  let r := row_of 2023 "January" 1 "StateA" "Combined" "General" "2012"
             5.0 150.0 in
  well_dated r
  /\ raw_xaxislabel r = Py.str (raw_year r) ++ raw_month r
  /\ month_number (normalise r) = "01"
  /\ year_month2 (normalise r) = "2023-01"
  /\ xaxislabel (normalise r) = "2023-Jan".
Proof.
  cbn zeta.
  assert (W : well_dated (row_of 2023 "January" 1 "StateA" "Combined"
                            "General" "2012" 5.0 150.0)).
  { unfold well_dated; cbn; lia. }
  split; [exact W|]. split; [reflexivity|].
  destruct (normalise_labels _ W eq_refl) as [E1 [E2 E3]].
  rewrite E1, E2, E3. repeat split; reflexivity.
Defined.

(** ** The selection of the Apply path *)

Lemma update_plot_rows_exact_witness :
  SelList [PInt 2023] <> SelNone
  /\ exists ys rows,
       eval (resolve_years (SelList [PInt 2023])) table_two_years = Ok ys
       /\ eval_df (update_plot_rows (Some "StateA") (Some "Combined")
                     (Some "General") (SelList [PInt 2023]) (Some "2012"))
                  table_two_years = Ok rows
       /\ Permutation rows
            (filter (matchesb (Some "StateA") (Some "Combined")
                       (Some "General") (Some "2012") ys) table_two_years)
       /\ forall r, In r rows
            <-> In r table_two_years
                /\ matches (Some "StateA") (Some "Combined") (Some "General")
                     (Some "2012") ys r.
Proof.
  split; [discriminate|].
  apply (update_plot_rows_exact table_two_years (Some "StateA")
           (Some "Combined") (Some "General") (SelList [PInt 2023])
           (Some "2012")).
  discriminate.
Defined.

Lemma filter_perm {A} (p : A -> bool) (l l' : list A) :
  Permutation l l' -> Permutation (filter p l) (filter p l').
Proof.
  induction 1 as [|a l l' _ IH|a b l|l1 l2 l3 _ IH1 _ IH2]; simpl.
  - constructor.
  - destruct (p a); [now constructor | assumption].
  - destruct (p a), (p b); try apply Permutation_refl. apply perm_swap.
  - eapply perm_trans; eassumption.
Qed.

Lemma apply_rows_of_download_rows table st sec g base ys :
  Permutation (apply_rows table st sec g base ys)
    (filter (fun r => PyOps.isin (year r) ys)
       (download_rows table st sec g base)).
Proof.
  unfold apply_rows, download_rows, Pd.sort_values.
  eapply perm_trans; [apply sort_by_perm|].
  eapply perm_trans;
    [|apply filter_perm, Permutation_sym, sort_by_perm].
  rewrite !filter_filter.
  erewrite filter_ext; [apply Permutation_refl|].
  intros r. cbv beta.
  destruct (PyOps.isin (year r) ys), (Py.eq_opt (state r) st),
    (Py.eq_opt (sector r) sec), (Py.eq_opt (grp r) g),
    (Py.eq_opt (base_year r) base); reflexivity.
Qed.

(** X12: the rows the Apply path keeps are among those the Download path
    keeps: they are the rows of the Download selection whose year is in the
    resolved year set. *)
Theorem apply_rows_within_download_rows
    (table : DataFrame) (st sec g : option string)
    (sel : YearSelection) (base : option string) :
  sel <> SelNone ->
  exists ys shown sent,
    eval (resolve_years sel) table = Ok ys
    /\ eval_df (update_plot_rows st sec g sel base) table = Ok shown
    /\ eval_df (download_plot_rows st sec g sel base) table = Ok sent
    /\ incl shown sent
    /\ Permutation shown (filter (fun r => PyOps.isin (year r) ys) sent).
Proof.
  intros H. destruct (resolve_years_ok sel table H) as [ys Hys].
  exists ys, (apply_rows table st sec g base ys),
    (download_rows table st sec g base).
  split; [assumption|]. split; [now apply update_plot_rows_eval|].
  split; [now apply (download_plot_rows_eval _ _ _ _ _ _ ys)|].
  split; [|apply apply_rows_of_download_rows].
  intros r Hr. apply apply_rows_In in Hr. apply download_rows_In.
  unfold matches in Hr. tauto.
Qed.

Lemma apply_rows_within_download_rows_witness :
  SelList [PInt 2023] <> SelNone
  /\ exists ys shown sent,
       eval (resolve_years (SelList [PInt 2023])) table_two_years = Ok ys
       /\ eval_df (update_plot_rows (Some "StateA") (Some "Combined")
                     (Some "General") (SelList [PInt 2023]) (Some "2012"))
                  table_two_years = Ok shown
       /\ eval_df (download_plot_rows (Some "StateA") (Some "Combined")
                     (Some "General") (SelList [PInt 2023]) (Some "2012"))
                  table_two_years = Ok sent
       /\ incl shown sent
       /\ Permutation shown (filter (fun r => PyOps.isin (year r) ys) sent).
Proof.
  split; [discriminate|].
  apply (apply_rows_within_download_rows table_two_years (Some "StateA")
           (Some "Combined") (Some "General") (SelList [PInt 2023])
           (Some "2012")).
  discriminate.
Defined.

Lemma apply_rows_ext table st sec g base ys ys' :
  (forall r, In r table ->
     PyOps.isin (year r) ys = PyOps.isin (year r) ys') ->
  apply_rows table st sec g base ys = apply_rows table st sec g base ys'.
Proof.
  intros H. unfold apply_rows. do 3 f_equal. now apply filter_ext_in.
Qed.

Lemma isin_ext (y : Z) (ys ys' : list PyVal) :
  (In (PInt y) ys <-> In (PInt y) ys') ->
  PyOps.isin y ys = PyOps.isin y ys'.
Proof.
  intros H. destruct (PyOps.isin y ys) eqn:E, (PyOps.isin y ys') eqn:E';
    try reflexivity.
  - apply isin_In, H, isin_In in E. congruence.
  - apply isin_In, H, isin_In in E'. congruence.
Qed.

Lemma update_plot_ext table n st sec g pt sel sel' base ys ys' :
  eval (resolve_years sel) table = Ok ys ->
  eval (resolve_years sel') table = Ok ys' ->
  (forall r, In r table ->
     (In (PInt (year r)) ys <-> In (PInt (year r)) ys')) ->
  eval (update_plot n st sec g pt sel base) table
  = eval (update_plot n st sec g pt sel' base) table.
Proof.
  intros H H' Hext.
  destruct ((n >? 0)
            || PyOps.tuple4_eqb (st, sec, g, pt) get_default_dropdown_values)
    eqn:Hg.
  - rewrite (update_plot_eval _ _ _ _ _ _ _ _ ys H Hg),
      (update_plot_eval _ _ _ _ _ _ _ _ ys' H' Hg).
    f_equal. apply apply_rows_ext. intros r Hr. now apply isin_ext, Hext.
  - now rewrite !update_plot_closed.
Qed.

(** X13: the figure of [update_plot] depends on the listed years as a set
    only: two lists with the same entries, in any order and with any
    repetition, give the same figure. *)
Theorem update_plot_depends_on_year_set
    (table : DataFrame) (n_clicks : Z) (st sec g pt : option string)
    (l l' : list PyVal) (base : option string) :
  (forall v, In v l <-> In v l') ->
  eval (update_plot n_clicks st sec g pt (SelList l) base) table
  = eval (update_plot n_clicks st sec g pt (SelList l') base) table.
Proof.
  intros Hset.
  destruct (resolve_years_ok (SelList l) table) as [ys Hys]; [discriminate|].
  destruct (resolve_years_ok (SelList l') table) as [ys' Hys']; [discriminate|].
  apply (update_plot_ext _ _ _ _ _ _ _ _ _ ys ys' Hys Hys').
  intros r _. rewrite resolve_years_eval in Hys, Hys'. cbn in Hys, Hys'.
  fold sentinel in Hys, Hys'.
  assert (Hm : Pd.mem pyval_eqb sentinel l = Pd.mem pyval_eqb sentinel l').
  { destruct (Pd.mem pyval_eqb sentinel l) eqn:E,
      (Pd.mem pyval_eqb sentinel l') eqn:E'; try reflexivity.
    - apply (mem_In pyval_eqb pyval_eqb_true), Hset,
        (mem_In pyval_eqb pyval_eqb_true) in E. congruence.
    - apply (mem_In pyval_eqb pyval_eqb_true), Hset,
        (mem_In pyval_eqb pyval_eqb_true) in E'. congruence. }
  rewrite <- Hm in Hys'.
  destruct (Pd.mem pyval_eqb sentinel l).
  - injection Hys as <-. injection Hys' as <-. tauto.
  - injection Hys as <-. injection Hys' as <-.
    rewrite !filter_sentinel_In, Hset. tauto.
Qed.

Lemma update_plot_depends_on_year_set_witness :
  (forall v, In v [PInt 2023; PInt 2024] <-> In v [PInt 2024; PInt 2023; PInt 2024])
  /\ eval (update_plot 1 (Some "StateA") (Some "Combined") (Some "General")
             (Some "Index") (SelList [PInt 2023; PInt 2024]) (Some "2012"))
          table_two_years
     = eval (update_plot 1 (Some "StateA") (Some "Combined") (Some "General")
               (Some "Index") (SelList [PInt 2024; PInt 2023; PInt 2024])
               (Some "2012"))
            table_two_years.
Proof.
  assert (H : forall v, In v [PInt 2023; PInt 2024]
                        <-> In v [PInt 2024; PInt 2023; PInt 2024]).
  { intros v. simpl. tauto. }
  split; [exact H|].
  apply (update_plot_depends_on_year_set table_two_years 1 (Some "StateA")
           (Some "Combined") (Some "General") (Some "Index") _ _ (Some "2012") H).
Defined.

(** X14: listing every year of the table gives the figure that
    "Select All" gives. *)
Theorem all_years_listed_same_as_select_all
    (table : DataFrame) (n_clicks : Z) (st sec g pt : option string)
    (l : list PyVal) (base : option string) :
  (forall r, In r table -> In (PInt (year r)) l) ->
  eval (update_plot n_clicks st sec g pt (SelList l) base) table
  = eval (update_plot n_clicks st sec g pt (SelStr "Select All") base) table.
Proof.
  intros Hall.
  destruct (resolve_years_ok (SelList l) table) as [ys Hys]; [discriminate|].
  destruct (resolve_years_ok (SelStr "Select All") table) as [ys' Hys'];
    [discriminate|].
  apply (update_plot_ext _ _ _ _ _ _ _ _ _ ys ys' Hys Hys').
  intros r Hr. rewrite resolve_years_eval in Hys, Hys'. cbn in Hys, Hys'.
  fold sentinel in Hys. injection Hys' as <-.
  assert (Hr' : In (PInt (year r))
                  (map PInt (Pd.unique Z.eqb (map year table)))).
  { apply all_years_spec. eauto. }
  destruct (Pd.mem pyval_eqb sentinel l).
  - injection Hys as <-. tauto.
  - injection Hys as <-. rewrite filter_sentinel_In.
    split; [auto|]. intros _. split; [now apply Hall | discriminate].
Qed.

Lemma all_years_listed_same_as_select_all_witness :
  (forall r, In r table_two_years -> In (PInt (year r)) [PInt 2024; PInt 2023])
  /\ eval (update_plot 1 (Some "StateA") (Some "Combined") (Some "General")
             (Some "Index") (SelList [PInt 2024; PInt 2023]) (Some "2012"))
          table_two_years
     = eval (update_plot 1 (Some "StateA") (Some "Combined") (Some "General")
               (Some "Index") (SelStr "Select All") (Some "2012"))
            table_two_years.
Proof.
  assert (H : forall r, In r table_two_years ->
                        In (PInt (year r)) [PInt 2024; PInt 2023]).
  { intros r Hr. cbn in Hr. destruct Hr as [<-|[<-|[]]]; cbn; tauto. }
  split; [exact H|].
  apply (all_years_listed_same_as_select_all table_two_years 1 (Some "StateA")
           (Some "Combined") (Some "General") (Some "Index") _ (Some "2012") H).
Defined.

(** ** An unset year selection *)

Lemma update_plot_raises_on_none
    (table : DataFrame) (n_clicks : Z) (st sec g pt base : option string) :
  0 < n_clicks \/ (st, sec, g, pt) = default_selection ->
  eval (update_plot n_clicks st sec g pt SelNone base) table = Raise TypeError.
Proof.
  intros H. apply gate_open in H. unfold eval, run, update_plot.
  rewrite H. reflexivity.
Qed.

(** X15: with an unset year selection, [update_plot] raises [TypeError]
    whenever its gate is open. *)
Theorem update_plot_none_years_raises
    (table : DataFrame) (n_clicks : Z) (st sec g pt base : option string) :
  0 < n_clicks \/ (st, sec, g, pt) = default_selection ->
  eval (update_plot n_clicks st sec g pt SelNone base) table = Raise TypeError.
Proof. apply update_plot_raises_on_none. Qed.

Lemma update_plot_none_years_raises_witness :
  (0 < 1 \/ (Some "StateA", Some "Combined", Some "General", Some "Index")
            = default_selection)
  /\ eval (update_plot 1 (Some "StateA") (Some "Combined") (Some "General")
             (Some "Index") SelNone (Some "2012")) table_state_a
     = Raise TypeError.
Proof.
  assert (H : 0 < 1 \/ (Some "StateA", Some "Combined", Some "General",
                        Some "Index") = default_selection) by (left; lia).
  split; [exact H|].
  apply (update_plot_none_years_raises table_state_a 1 (Some "StateA")
           (Some "Combined") (Some "General") (Some "Index") (Some "2012") H).
Defined.

(** X16: with an unset year selection, [download_plot] raises
    [TypeError] when the download button triggered it. *)
Theorem download_plot_none_years_raises
    (table : DataFrame) (prop_id : string) (rest : list string)
    (clicks : Z) (st sec g pt base : option string) :
  PyOps.split_dot_head prop_id = "download-button" ->
  eval (download_plot (prop_id :: rest) clicks st sec g pt SelNone base) table
  = Raise TypeError.
Proof.
  intros H. unfold eval, run, download_plot. rewrite H. reflexivity.
Qed.

Lemma download_plot_none_years_raises_witness :
  PyOps.split_dot_head "download-button.n_clicks" = "download-button"
  /\ eval (download_plot ["download-button.n_clicks"] 1 (Some "StateA")
             (Some "Combined") (Some "General") (Some "Index") SelNone
             (Some "2012")) table_state_a
     = Raise TypeError.
Proof.
  split; [reflexivity|].
  apply (download_plot_none_years_raises table_state_a
           "download-button.n_clicks" [] 1 (Some "StateA") (Some "Combined")
           (Some "General") (Some "Index") (Some "2012")).
  reflexivity.
Defined.

(** ** When Download does nothing *)

(** X17: when nothing triggered the callback, or the first triggered
    property is not of the download button, [download_plot] returns [None]:
    it raises nothing, whatever the year selection, and creates no
    DataFrame. *)
Theorem download_plot_only_on_button
    (table : DataFrame) (triggered : list string) (clicks : Z)
    (st sec g pt : option string) (sel : YearSelection)
    (base : option string) :
  (forall prop_id rest,
     triggered = prop_id :: rest ->
     PyOps.split_dot_head prop_id <> "download-button") ->
  run (download_plot triggered clicks st sec g pt sel base) table
  = (Ok None, [table]).
Proof.
  intros H. unfold run, download_plot.
  destruct triggered as [|prop_id rest]; [reflexivity|].
  specialize (H prop_id rest eq_refl).
  apply String.eqb_neq in H. rewrite H. reflexivity.
Qed.

Lemma download_plot_only_on_button_witness :
  (forall prop_id rest,
     ["plot-button.n_clicks"] = prop_id :: rest ->
     PyOps.split_dot_head prop_id <> "download-button")
  /\ run (download_plot ["plot-button.n_clicks"] 0 (Some "StateA")
            (Some "Combined") (Some "General") (Some "Index") SelNone
            (Some "2012")) table_state_a
     = (Ok None, [table_state_a]).
Proof.
  assert (H : forall prop_id rest,
                ["plot-button.n_clicks"] = prop_id :: rest ->
                PyOps.split_dot_head prop_id <> "download-button").
  { intros prop_id rest E. injection E as <- _. discriminate. }
  split; [exact H|].
  apply (download_plot_only_on_button table_state_a ["plot-button.n_clicks"]
           0 (Some "StateA") (Some "Combined") (Some "General") (Some "Index")
           SelNone (Some "2012") H).
Defined.

(** ** The indicator *)

Lemma update_plot_figure_not_index rows pt :
  pt <> Some "Index" ->
  eval (update_plot_figure cpi_data pt) rows
  = eval (update_plot_figure cpi_data (Some "Inflation")) rows.
Proof.
  intros H. unfold eval, run, update_plot_figure.
  destruct (Py.opt_eqb pt (Some "Index")) eqn:E; [|reflexivity].
  apply opt_eqb_true in E. contradiction.
Qed.

(** X18: once Apply has been clicked, any indicator other than "Index",
    an unset one included, gives the figure of "Inflation". *)
Theorem update_plot_any_other_indicator_is_inflation
    (table : DataFrame) (n_clicks : Z) (st sec g pt : option string)
    (sel : YearSelection) (base : option string) :
  pt <> Some "Index" ->
  0 < n_clicks ->
  eval (update_plot n_clicks st sec g pt sel base) table
  = eval (update_plot n_clicks st sec g (Some "Inflation") sel base) table.
Proof.
  intros Hpt Hn.
  assert (Hg : forall p,
    (n_clicks >? 0)
    || PyOps.tuple4_eqb (st, sec, g, p) get_default_dropdown_values = true).
  { intros p. apply gate_open. now left. }
  destruct sel as [|s|l].
  - rewrite !update_plot_raises_on_none by now left. reflexivity.
  - destruct (resolve_years_ok (SelStr s) table) as [ys Hys]; [discriminate|].
    rewrite !(update_plot_eval _ _ _ _ _ _ _ _ ys Hys) by apply Hg.
    now apply update_plot_figure_not_index.
  - destruct (resolve_years_ok (SelList l) table) as [ys Hys]; [discriminate|].
    rewrite !(update_plot_eval _ _ _ _ _ _ _ _ ys Hys) by apply Hg.
    now apply update_plot_figure_not_index.
Qed.

Lemma update_plot_any_other_indicator_is_inflation_witness :
  None <> Some "Index"
  /\ 0 < 1
  /\ eval (update_plot 1 (Some "StateA") (Some "Combined") (Some "General")
             None (SelStr "Select All") (Some "2012")) table_state_a
     = eval (update_plot 1 (Some "StateA") (Some "Combined") (Some "General")
               (Some "Inflation") (SelStr "Select All") (Some "2012"))
            table_state_a.
Proof.
  split; [discriminate|]. split; [lia|].
  apply (update_plot_any_other_indicator_is_inflation table_state_a 1
           (Some "StateA") (Some "Combined") (Some "General") None
           (SelStr "Select All") (Some "2012")); [discriminate | lia].
Defined.

(** X19: for an indicator that is neither "Index" nor "Inflation",
    [download_plot] serialises the empty figure, with no trace and no
    layout, under the name "plot.svg". *)
Theorem download_plot_unknown_indicator_empty
    (table : DataFrame) (prop_id : string) (rest : list string) (clicks : Z)
    (st sec g pt : option string) (sel : YearSelection)
    (base : option string) :
  sel <> SelNone ->
  PyOps.split_dot_head prop_id = "download-button" ->
  pt <> Some "Index" -> pt <> Some "Inflation" ->
  eval (download_plot (prop_id :: rest) clicks st sec g pt sel base) table
  = Ok (Some (mkDownload Figure.empty "plot.svg")).
Proof.
  intros Hsel Hb H1 H2.
  destruct (resolve_years_ok sel table Hsel) as [ys Hys].
  rewrite (download_plot_eval _ _ _ _ _ _ _ _ _ _ ys Hys Hb).
  unfold eval, run, download_plot_figure.
  destruct (Py.opt_eqb pt (Some "Index")) eqn:E1;
    [apply opt_eqb_true in E1; contradiction|].
  destruct (Py.opt_eqb pt (Some "Inflation")) eqn:E2;
    [apply opt_eqb_true in E2; contradiction|].
  reflexivity.
Qed.

Lemma download_plot_unknown_indicator_empty_witness :
  SelStr "Select All" <> SelNone
  /\ PyOps.split_dot_head "download-button.n_clicks" = "download-button"
  /\ None <> Some "Index" /\ None <> Some "Inflation"
  /\ eval (download_plot ["download-button.n_clicks"] 1 (Some "StateA")
             (Some "Combined") (Some "General") None (SelStr "Select All")
             (Some "2012")) table_state_a
     = Ok (Some (mkDownload Figure.empty "plot.svg")).
Proof.
  split; [discriminate|]. split; [reflexivity|].
  split; [discriminate|]. split; [discriminate|].
  apply (download_plot_unknown_indicator_empty table_state_a
           "download-button.n_clicks" [] 1 (Some "StateA") (Some "Combined")
           (Some "General") None (SelStr "Select All") (Some "2012"));
    [discriminate | reflexivity | discriminate | discriminate].
Defined.

(** ** Download and the year selection *)

(** X20: the result of [download_plot] is the same for any two year
    selections that are set: the years chosen do not reach the export. *)
Theorem download_plot_independent_of_years
    (table : DataFrame) (triggered : list string) (clicks : Z)
    (st sec g pt : option string) (sel sel' : YearSelection)
    (base : option string) :
  sel <> SelNone -> sel' <> SelNone ->
  eval (download_plot triggered clicks st sec g pt sel base) table
  = eval (download_plot triggered clicks st sec g pt sel' base) table.
Proof.
  intros H H'. destruct triggered as [|prop_id rest]; [reflexivity|].
  destruct (String.eqb (PyOps.split_dot_head prop_id) "download-button")
    eqn:Hb.
  - apply String.eqb_eq in Hb.
    destruct (resolve_years_ok sel table H) as [ys Hys].
    destruct (resolve_years_ok sel' table H') as [ys' Hys'].
    now rewrite (download_plot_eval _ _ _ _ _ _ _ _ _ _ ys Hys Hb),
      (download_plot_eval _ _ _ _ _ _ _ _ _ _ ys' Hys' Hb).
  - unfold eval, run, download_plot. now rewrite Hb.
Qed.

Lemma download_plot_independent_of_years_witness :
  SelList [PInt 2023] <> SelNone
  /\ SelStr "Select All" <> SelNone
  /\ eval (download_plot ["download-button.n_clicks"] 1 (Some "StateA")
             (Some "Combined") (Some "General") (Some "Index")
             (SelList [PInt 2023]) (Some "2012")) table_two_years
     = eval (download_plot ["download-button.n_clicks"] 1 (Some "StateA")
               (Some "Combined") (Some "General") (Some "Index")
               (SelStr "Select All") (Some "2012")) table_two_years.
Proof.
  split; [discriminate|]. split; [discriminate|].
  apply (download_plot_independent_of_years table_two_years
           ["download-button.n_clicks"] 1 (Some "StateA") (Some "Combined")
           (Some "General") (Some "Index") (SelList [PInt 2023])
           (SelStr "Select All") (Some "2012")); discriminate.
Defined.

(** ** From the table to the points of the chart *)

(** X21: once Apply has been clicked, the figure has one trace with one
    point per row of the table that meets the five constraints: its points
    are, up to order, the (year-month label, value) pairs of those rows,
    the value being the index for "Index" and the inflation otherwise. *)
Theorem update_plot_points_are_matching_rows
    (table : DataFrame) (n_clicks : Z) (st sec g pt : option string)
    (sel : YearSelection) (base : option string) :
  sel <> SelNone ->
  0 < n_clicks ->
  exists ys fig tr,
    eval (resolve_years sel) table = Ok ys
    /\ eval (update_plot n_clicks st sec g pt sel base) table = Ok fig
    /\ Figure.data fig = [tr]
    /\ Permutation (points tr)
         (map (fun r => (year_month2 r,
                         if Py.opt_eqb pt (Some "Index")
                         then index r else inflation r))
            (filter (matchesb st sec g base ys) table))
    /\ List.length (points tr)
       = List.length (filter (matchesb st sec g base ys) table).
Proof.
  intros Hsel Hn.
  destruct (resolve_years_ok sel table Hsel) as [ys Hys].
  assert (Hg : (n_clicks >? 0)
               || PyOps.tuple4_eqb (st, sec, g, pt)
                    get_default_dropdown_values = true).
  { apply gate_open. now left. }
  exists ys.
  rewrite (update_plot_eval _ _ _ _ _ _ _ _ ys Hys Hg).
  pose proof (apply_rows_perm table st sec g base ys) as P.
  unfold eval, run, update_plot_figure.
  destruct (Py.opt_eqb pt (Some "Index")); cbn;
    do 2 eexists; (split; [assumption|]); (split; [reflexivity|]);
    (split; [reflexivity|]); unfold points; cbn [Scatter.x Scatter.y];
    rewrite combine_map; split;
    [ now apply Permutation_map
    | rewrite length_map; now apply Permutation_length
    | now apply Permutation_map
    | rewrite length_map; now apply Permutation_length ].
Qed.

Lemma update_plot_points_are_matching_rows_witness :
  SelList [PInt 2023] <> SelNone
  /\ 0 < 1
  /\ exists ys fig tr,
       eval (resolve_years (SelList [PInt 2023])) table_two_years = Ok ys
       /\ eval (update_plot 1 (Some "StateA") (Some "Combined")
                  (Some "General") (Some "Index") (SelList [PInt 2023])
                  (Some "2012")) table_two_years = Ok fig
       /\ Figure.data fig = [tr]
       /\ Permutation (points tr)
            (map (fun r => (year_month2 r,
                            if Py.opt_eqb (Some "Index") (Some "Index")
                            then index r else inflation r))
               (filter (matchesb (Some "StateA") (Some "Combined")
                          (Some "General") (Some "2012") ys) table_two_years))
       /\ List.length (points tr)
          = List.length
              (filter (matchesb (Some "StateA") (Some "Combined")
                         (Some "General") (Some "2012") ys) table_two_years).
Proof.
  split; [discriminate|]. split; [lia|].
  apply (update_plot_points_are_matching_rows table_two_years 1
           (Some "StateA") (Some "Combined") (Some "General") (Some "Index")
           (SelList [PInt 2023]) (Some "2012")); [discriminate | lia].
Defined.
